(** * The mixer HTTP filter of src/envoy/mixer/http_filter.cc

    A shallow embedding of the decoder filter that gates an HTTP stream on
    a policy check and reports at stream completion.  Integers of the
    source ([int] status codes) are [Z]; strings are [string]; the route's
    opaque configuration is a finite map; every call the filter makes on
    its host (header mutation, Check, local reply, continueDecoding,
    Report, log lines) is recorded in a trace of [Event]s, in program
    order. *)

From Stdlib Require Import ZArith List Bool.
From stdpp Require Import base strings gmap.
Import ListNotations.

Local Open Scope string_scope.
Local Open Scope Z_scope.
Local Open Scope list_scope.

(** ** Canonical status codes

    [StatusCode] is [::google::protobuf::util::error::Code]; the numbering
    is the one of the protobuf library. *)
Module StatusCode.
Definition OK : Z := 0.
Definition CANCELLED : Z := 1.
Definition UNKNOWN : Z := 2.
Definition INVALID_ARGUMENT : Z := 3.
Definition DEADLINE_EXCEEDED : Z := 4.
Definition NOT_FOUND : Z := 5.
Definition ALREADY_EXISTS : Z := 6.
Definition PERMISSION_DENIED : Z := 7.
Definition RESOURCE_EXHAUSTED : Z := 8.
Definition FAILED_PRECONDITION : Z := 9.
Definition ABORTED : Z := 10.
Definition OUT_OF_RANGE : Z := 11.
Definition UNIMPLEMENTED : Z := 12.
Definition INTERNAL : Z := 13.
Definition UNAVAILABLE : Z := 14.
Definition DATA_LOSS : Z := 15.
Definition UNAUTHENTICATED : Z := 16.

(** The seventeen enumerators, in the order of the switch of [HttpCode]. *)
Definition all : list Z :=
  [ OK; CANCELLED; UNKNOWN; INVALID_ARGUMENT; DEADLINE_EXCEEDED; NOT_FOUND;
    ALREADY_EXISTS; PERMISSION_DENIED; RESOURCE_EXHAUSTED;
    FAILED_PRECONDITION; ABORTED; OUT_OF_RANGE; UNIMPLEMENTED; INTERNAL;
    UNAVAILABLE; DATA_LOSS; UNAUTHENTICATED ].
End StatusCode.

(** [int HttpCode(int code)]: the switch, one case per line of the source,
    ending in the [default]. *)
Definition HttpCode (code : Z) : Z :=
  if code =? StatusCode.OK then 200
  else if code =? StatusCode.CANCELLED then 499
  else if code =? StatusCode.UNKNOWN then 500
  else if code =? StatusCode.INVALID_ARGUMENT then 400
  else if code =? StatusCode.DEADLINE_EXCEEDED then 504
  else if code =? StatusCode.NOT_FOUND then 404
  else if code =? StatusCode.ALREADY_EXISTS then 409
  else if code =? StatusCode.PERMISSION_DENIED then 403
  else if code =? StatusCode.RESOURCE_EXHAUSTED then 429
  else if code =? StatusCode.FAILED_PRECONDITION then 400
  else if code =? StatusCode.ABORTED then 409
  else if code =? StatusCode.OUT_OF_RANGE then 400
  else if code =? StatusCode.UNIMPLEMENTED then 501
  else if code =? StatusCode.INTERNAL then 500
  else if code =? StatusCode.UNAVAILABLE then 503
  else if code =? StatusCode.DATA_LOSS then 500
  else if code =? StatusCode.UNAUTHENTICATED then 401
  else 500.

(** [google::protobuf::util::Status]: a code and a message; [ok()] is
    [error_code() == OK]. *)
Record Status := mkStatus {
  error_code : Z;
  error_message : string
}.

Definition Status_ok (status : Status) : bool :=
  error_code status =? StatusCode.OK.

(** ** Route switches *)

(** The JSON object names of the source. *)
Definition kJsonNameMixerServer : string := "mixer_server".
Definition kJsonNameMixerAttributes : string := "mixer_attributes".
Definition kJsonNameForwardAttributes : string := "forward_attributes".
Definition kJsonNameForwardSwitch : string := "mixer_forward".
Definition kJsonNameMixerSwitch : string := "mixer_control".

(** What the filter reads of the host's routing table: [route()] and
    [routeEntry()] return pointers that may be null, [opaqueConfig()] a
    map from string keys to string values. *)
Record RouteEntry := mkRouteEntry {
  opaqueConfig : gmap string string
}.

Record Route := mkRoute {
  routeEntry : option RouteEntry
}.

(** [Ssl::Connection]: [uriSanPeerCertificate()] is all the filter reads
    of it. *)
Record Connection := mkConnection {
  uriSanPeerCertificate : string
}.

(** The closure [[this]() { state_ = Responded; }] that
    [setDecoderFilterCallbacks] hands to the host, as data. *)
Inductive ResetStreamCallback :=
| SetResponded.

(** The host's stream object [decoder_callbacks_] points at: the matched
    route (null when none matched), the TLS connection (null on a
    plain-text connection) and the reset callbacks registered so far.  The
    methods below that dereference [decoder_callbacks_] take this object
    as their argument [cb]. *)
Record StreamDecoderFilterCallbacks := mkCallbacks {
  route : option Route;
  ssl : option Connection;
  reset_stream_callbacks : list ResetStreamCallback
}.

(** [bool mixer_disabled()]: mixer control switch (off by default). *)
Definition mixer_disabled (cb : StreamDecoderFilterCallbacks) : bool :=
  match route cb with
  | Some r =>
      match routeEntry r with
      | Some entry =>
          match opaqueConfig entry !! kJsonNameMixerSwitch with
          | Some value => if String.eqb value "on" then false else true
          | None => true
          end
      | None => true
      end
  | None => true
  end.

(** [bool forward_disabled()]: attribute forward switch (on by default). *)
Definition forward_disabled (cb : StreamDecoderFilterCallbacks) : bool :=
  match route cb with
  | Some r =>
      match routeEntry r with
      | Some entry =>
          match opaqueConfig entry !! kJsonNameForwardSwitch with
          | Some value => if String.eqb value "off" then true else false
          | None => false
          end
      | None => false
      end
  | None => false
  end.

(** The value the route's opaque configuration gives a key, when there is
    a route, a route entry and the key. *)
Definition route_option (cb : StreamDecoderFilterCallbacks) (key : string)
  : option string :=
  r ← route cb; entry ← routeEntry r; opaqueConfig entry !! key.

(** ** Host-side data the filter handles *)

(** [Http::HeaderMap]: the header entries in order; [addStatic] appends
    one entry. *)
Definition HeaderMap := list (string * string).

Definition addStatic (headers : HeaderMap) (key value : string) : HeaderMap :=
  headers ++ [(key, value)].

(** [Utils::StringMap] is [std::map<std::string, std::string>]. *)
Abbreviation StringMap := (gmap string string).

(** [HttpRequestData], the request-scoped object shared with the mixer
    client; the filter only creates it ([std::make_shared]) and hands it
    on, so one value stands for the freshly made object. *)
Inductive HttpRequestData :=
| HttpRequestData_new.

(** [Json::Object] of the host, through the two methods the constructor of
    [Config] calls.  [getString] throws when the name is bound to something
    that is not a string: [None]. *)
Record Json_Object := mkJson {
  hasObject : string -> bool;
  getString : string -> option string
}.

Inductive FilterHeadersStatus :=
| FilterHeadersStatus_Continue
| FilterHeadersStatus_StopIteration.

Inductive FilterDataStatus :=
| FilterDataStatus_Continue
| FilterDataStatus_StopIterationAndBuffer.

Inductive FilterTrailersStatus :=
| FilterTrailersStatus_Continue
| FilterTrailersStatus_StopIteration.

(** Every call the filter makes on a collaborator, as it appears in the
    trace.  Log lines keep their format string. *)
Inductive Event :=
| LogError (fmt : string)
| LogDebug (fmt : string)
| AddStatic (key value : string)
| AddResetStreamCallback (f : ResetStreamCallback)
| HttpControl_Check (request_data : HttpRequestData) (headers : HeaderMap)
        (origin_user : string)
| SendLocalReply (code : Z) (body : string)
| ContinueDecoding
| HttpControl_Report (request_data : HttpRequestData) (check_status_code : Z).

Definition is_log (e : Event) : bool :=
  match e with
  | LogError _ | LogDebug _ => true
  | _ => false
  end.

Definition is_Check (e : Event) : bool :=
  match e with HttpControl_Check _ _ _ => true | _ => false end.

Definition is_SendLocalReply (e : Event) : bool :=
  match e with SendLocalReply _ _ => true | _ => false end.

Definition is_ContinueDecoding (e : Event) : bool :=
  match e with ContinueDecoding => true | _ => false end.

Definition is_Report (e : Event) : bool :=
  match e with HttpControl_Report _ _ => true | _ => false end.

Definition is_AddStatic (e : Event) : bool :=
  match e with AddStatic _ _ => true | _ => false end.

(** How often the events of a kind occur in a trace. *)
Fixpoint count (p : Event -> bool) (trace : list Event) : nat :=
  match trace with
  | [] => 0%nat
  | e :: trace' => ((if p e then 1 else 0) + count p trace')%nat
  end.

(** ** The shared filter configuration *)

(** Modelled from the spec: [HttpControl] of
    src/envoy/mixer/http_control.h, of which the filter uses the
    constructor, [Check] and [Report]; the constructor keeps the
    decision-service address and the static attributes it is given and
    does nothing else. *)
Record HttpControl := mkHttpControl {
  mixer_server : string;
  mixer_attributes : StringMap
}.

Record Config := mkConfig {
  http_control : HttpControl;
  forward_attributes : string
}.

Definition string_empty (s : string) : bool :=
  match s with EmptyString => true | _ => false end.

Definition StringMap_empty (m : StringMap) : bool :=
  bool_decide (m = ∅).

(** ** The per-request filter instance *)

Inductive State :=
| NotStarted
| Calling
| Complete
| Responded.

Definition State_eqb (a b : State) : bool :=
  match a, b with
  | NotStarted, NotStarted | Calling, Calling
  | Complete, Complete | Responded, Responded => true
  | _, _ => false
  end.

(** The members of [class Instance].  [decoder_callbacks_] is the pointer
    to the host's stream object, passed to the methods as [cb];
    [request_data_] is a shared pointer, null until [decodeHeaders] makes
    the object. *)
Record Instance := mkInstance {
  http_control_ : HttpControl;
  config_ : Config;
  request_data_ : option HttpRequestData;
  state_ : State;
  initiating_call_ : bool;
  check_status_code_ : Z;
  mixer_disabled_ : bool
}.

(** A method of [Instance]: it reads and writes the members and calls out
    to the host; the calls are collected in order. *)
Definition Method (A : Type) : Type := Instance -> A * Instance * list Event.

Definition ret {A} (a : A) : Method A := fun inst => (a, inst, []).

Definition bind {A B} (m : Method A) (k : A -> Method B) : Method B :=
  fun inst =>
    let '(a, inst1, trace1) := m inst in
    let '(b, inst2, trace2) := k a inst1 in
    (b, inst2, trace1 ++ trace2).

Declare Scope method_scope.
Delimit Scope method_scope with method.
Bind Scope method_scope with Method.
Notation "x ← y ; z" := (bind y (fun x => z))
  (at level 20, y at level 100, z at level 200, only parsing) : method_scope.
Notation "x ;; z" := (bind x (fun _ => z))
  (at level 100, z at level 200, only parsing, right associativity)
  : method_scope.

Definition member {A} (field : Instance -> A) : Method A :=
  fun inst => (field inst, inst, []).

Definition emit (e : Event) : Method unit :=
  fun inst => (tt, inst, [e]).

Definition set_request_data_ (v : option HttpRequestData) : Method unit :=
  fun inst =>
    (tt, mkInstance (http_control_ inst) (config_ inst) v (state_ inst)
           (initiating_call_ inst) (check_status_code_ inst)
           (mixer_disabled_ inst), []).

Definition set_state_ (v : State) : Method unit :=
  fun inst =>
    (tt, mkInstance (http_control_ inst) (config_ inst) (request_data_ inst) v
           (initiating_call_ inst) (check_status_code_ inst)
           (mixer_disabled_ inst), []).

Definition set_initiating_call_ (v : bool) : Method unit :=
  fun inst =>
    (tt, mkInstance (http_control_ inst) (config_ inst) (request_data_ inst)
           (state_ inst) v (check_status_code_ inst) (mixer_disabled_ inst),
     []).

Definition set_check_status_code_ (v : Z) : Method unit :=
  fun inst =>
    (tt, mkInstance (http_control_ inst) (config_ inst) (request_data_ inst)
           (state_ inst) (initiating_call_ inst) v (mixer_disabled_ inst),
     []).

Definition set_mixer_disabled_ (v : bool) : Method unit :=
  fun inst =>
    (tt, mkInstance (http_control_ inst) (config_ inst) (request_data_ inst)
           (state_ inst) (initiating_call_ inst) (check_status_code_ inst) v,
     []).

(** Projections of a method's outcome. *)
Definition returned {A} (r : A * Instance * list Event) : A := fst (fst r).
Definition after {A} (r : A * Instance * list Event) : Instance := snd (fst r).
Definition trace_of {A} (r : A * Instance * list Event) : list Event := snd r.

(** What the host does with the done function while [Check] runs.  The
    filter hands [Check] the function made by [wrapper], which posts
    [completeCheck(status)] to the stream's dispatcher; whether that has
    run by the time [Check] returns is up to the mixer client and the
    dispatcher. *)
Inductive CheckOutcome :=
| RanInFrame (status : Status)
| Deferred.

(** ** Concrete requests used to exercise the statements below *)
Module Sample.
Definition header_name : string := "x-istio-attributes".
Definition to_string (status : Status) : string := error_message status.

Definition permission_denied : Status :=
  mkStatus StatusCode.PERMISSION_DENIED "PERMISSION_DENIED: not allowed".
Definition success : Status := mkStatus StatusCode.OK "OK".

Definition route_with (key value : string) : option Route :=
  Some (mkRoute (Some (mkRouteEntry {[ key := value ]}))).

Definition control_on : StreamDecoderFilterCallbacks :=
  mkCallbacks (route_with "mixer_control" "on") None [].
Definition forward_off : StreamDecoderFilterCallbacks :=
  mkCallbacks (route_with "mixer_forward" "off") None [].
Definition no_route : StreamDecoderFilterCallbacks :=
  mkCallbacks None None [].

Definition config : Config :=
  mkConfig (mkHttpControl "mixer:9091" ∅) "YmxvYg==".

Definition instance_in (state : State) : Instance :=
  mkInstance (http_control config) config (Some HttpRequestData_new) state
    false 500 false.

Definition request_headers : HeaderMap := [(":path", "/")].

Definition json_without_server : Json_Object :=
  mkJson (fun _ => false) (fun _ => None).
Definition extract (config : Json_Object) (name : string) : StringMap :=
  if String.eqb name "forward_attributes" then {[ "a" := "b" ]} else ∅.
Definition serialize (m : StringMap) : string := "a=b".
Definition base64 (s : string) : string := "YT1i".
End Sample.

Module SampleMore.
Definition tls : Connection := mkConnection "spiffe://cluster.local/ns/a".
Definition control_on_tls : StreamDecoderFilterCallbacks :=
  mkCallbacks (Sample.route_with "mixer_control" "on") (Some tls) [].
Definition json_with_server : Json_Object :=
  mkJson (fun name => String.eqb name "mixer_server")
         (fun name =>
            if String.eqb name "mixer_server" then Some "mixer:9091"
            else None).
Definition json_with_bad_server : Json_Object :=
  mkJson (fun name => String.eqb name "mixer_server") (fun _ => None).
Definition unavailable : Status :=
  mkStatus StatusCode.UNAVAILABLE "UNAVAILABLE: no backend".
End SampleMore.

Section Filter.

(** Collaborators of the filter that live outside this file:
    [Utils::kIstioAttributeHeader], [Utils::ExtractStringMap] and
    [Utils::SerializeStringMap] of src/envoy/mixer/utils.h,
    [Base64::encode] of the host and [Status::ToString] of protobuf. *)
Variable kIstioAttributeHeader : string.
Variable ExtractStringMap : Json_Object -> string -> StringMap.
Variable SerializeStringMap : StringMap -> string.
Variable Base64_encode : string -> string.
Variable ToString : Status -> string.

Local Open Scope method_scope.

(** [Config::Config(const Json::Object& config, Server::Instance& server)].
    The result is [None] when [getString] throws; otherwise the
    configuration built and the lines logged. *)
Definition Config_new (config : Json_Object)
  : option (Config * list Event) :=
  let mixer_server_read :=
    if hasObject config kJsonNameMixerServer
    then
      match getString config kJsonNameMixerServer with
      | Some s => Some (s, [])
      | None => None
      end
    else Some ("", [LogError
      "mixer_server is required but not specified in the config: {}"]) in
  match mixer_server_read with
  | None => None
  | Some (mixer_server, trace1) =>
      let attributes :=
        ExtractStringMap config kJsonNameForwardAttributes in
      let '(forward_attributes_, trace2) :=
        if negb (StringMap_empty attributes)
        then
          let serialized_str := SerializeStringMap attributes in
          (Base64_encode serialized_str,
           [LogDebug "Mixer forward attributes set: "])
        else ("", []) in
      let mixer_attributes :=
        ExtractStringMap config kJsonNameMixerAttributes in
      let http_control_ := mkHttpControl mixer_server mixer_attributes in
      Some (mkConfig http_control_ forward_attributes_,
            trace1 ++ trace2 ++
            [LogDebug
               "Called Mixer::Config constructor with mixer_server: "])
  end.

(** [Instance::Instance(ConfigPtr config)].  [mixer_disabled_] is not in
    the initialiser list: it starts with whatever value [indeterminate]
    the storage holds. *)
Definition Instance_new (config : Config) (indeterminate : bool)
  : Instance * list Event :=
  (mkInstance (http_control config) config None NotStarted false
     (HttpCode StatusCode.UNKNOWN) indeterminate,
   [LogDebug "Called Mixer::Instance : {}"]).

(** [void completeCheck(const Status& status)]. *)
Definition completeCheck (status : Status) : Method unit :=
  emit (LogDebug "Called Mixer::Instance : check complete {}");;
  state ← member state_;
  if negb (Status_ok status) && negb (State_eqb state Responded)
  then
    set_state_ Responded;;
    set_check_status_code_ (HttpCode (error_code status));;
    code ← member check_status_code_;
    emit (SendLocalReply code (ToString status));;
    ret tt
  else
    set_state_ Complete;;
    initiating ← member initiating_call_;
    if negb initiating
    then emit ContinueDecoding
    else ret tt.

(** [DoneFunc wrapper(DoneFunc on_done)] with the [on_done] of
    [decodeHeaders]: invoked with [status], it posts
    [completeCheck(status)] to the dispatcher.  [posted_by_wrapper] is
    the posted functor, run by the host. *)
Definition posted_by_wrapper (status : Status) : Method unit :=
  completeCheck status.

(** [FilterHeadersStatus decodeHeaders(HeaderMap& headers, bool
    end_stream)].  The header map is taken and given back. *)
Definition decodeHeaders (cb : StreamDecoderFilterCallbacks)
    (check : CheckOutcome) (headers : HeaderMap) (end_stream : bool)
  : Method (FilterHeadersStatus * HeaderMap) :=
  emit (LogDebug "Called Mixer::Instance : {}");;
  config ← member config_;
  headers ←
    (if negb (string_empty (forward_attributes config))
        && negb (forward_disabled cb)
     then
       emit (AddStatic kIstioAttributeHeader (forward_attributes config));;
       ret (addStatic headers kIstioAttributeHeader
               (forward_attributes config))
     else ret headers);
  set_mixer_disabled_ (mixer_disabled cb);;
  disabled ← member mixer_disabled_;
  if disabled
  then ret (FilterHeadersStatus_Continue, headers)
  else
    set_state_ Calling;;
    set_initiating_call_ true;;
    let request_data := HttpRequestData_new in
    set_request_data_ (Some request_data);;
    let origin_user :=
      match ssl cb with
      | Some connection => uriSanPeerCertificate connection
      | None => ""
      end in
    emit (HttpControl_Check request_data headers origin_user);;
    match check with
    | RanInFrame status => posted_by_wrapper status
    | Deferred => ret tt
    end;;
    set_initiating_call_ false;;
    state ← member state_;
    if State_eqb state Complete
    then ret (FilterHeadersStatus_Continue, headers)
    else
      emit (LogDebug "Called Mixer::Instance : {} Stop");;
      ret (FilterHeadersStatus_StopIteration, headers).

(** [FilterDataStatus decodeData(Buffer::Instance& data, bool
    end_stream)]. *)
Definition decodeData (data : string) (end_stream : bool)
  : Method FilterDataStatus :=
  disabled ← member mixer_disabled_;
  if disabled
  then ret FilterDataStatus_Continue
  else
    emit (LogDebug "Called Mixer::Instance : {} ({}, {})");;
    state ← member state_;
    if State_eqb state Calling
    then ret FilterDataStatus_StopIterationAndBuffer
    else ret FilterDataStatus_Continue.

(** [FilterTrailersStatus decodeTrailers(HeaderMap& trailers)]. *)
Definition decodeTrailers (trailers : HeaderMap)
  : Method FilterTrailersStatus :=
  disabled ← member mixer_disabled_;
  if disabled
  then ret FilterTrailersStatus_Continue
  else
    emit (LogDebug "Called Mixer::Instance : {}");;
    state ← member state_;
    if State_eqb state Calling
    then ret FilterTrailersStatus_StopIteration
    else ret FilterTrailersStatus_Continue.

(** [void setDecoderFilterCallbacks(StreamDecoderFilterCallbacks&
    callbacks)]: keeps the pointer and registers the reset callback on
    the stream object, which is given back. *)
Definition setDecoderFilterCallbacks (callbacks : StreamDecoderFilterCallbacks)
  : Method StreamDecoderFilterCallbacks :=
  emit (LogDebug "Called Mixer::Instance : {}");;
  emit (AddResetStreamCallback SetResponded);;
  ret (mkCallbacks (route callbacks) (ssl callbacks)
         (reset_stream_callbacks callbacks ++ [SetResponded])).

(** Running a registered reset callback. *)
Definition run_reset_callback (f : ResetStreamCallback) : Method unit :=
  match f with
  | SetResponded => set_state_ Responded
  end.

(** The done function [log] hands to [Report]: it captures nothing and
    logs the status. *)
Definition report_done (status : Status) : list Event :=
  [LogDebug "Report returns status: {}"].

(** [void log(const HeaderMap* request_headers, const HeaderMap*
    response_headers, const AccessLog::RequestInfo& request_info)].  The
    [Report] event keeps the request data and the status code of the
    call. *)
Definition log (request_headers response_headers : option HeaderMap)
  : Method unit :=
  emit (LogDebug "Called Mixer::Instance : {}");;
  request_data ← member request_data_;
  match request_data with
  | None => ret tt
  | Some data =>
      code ← member check_status_code_;
      emit (HttpControl_Report data code)
  end.

(** ** The filter driven by its host

    One request: the filter instance and the stream object it is bound
    to.  The host calls the hooks in some order; a stream reset runs the
    registered reset callbacks; [Op_checkDone] is the dispatcher running
    the functor the wrapper posted, [Op_reportDone] the mixer client
    calling the done function of a report. *)
Record World := mkWorld {
  instance_of : Instance;
  stream : StreamDecoderFilterCallbacks
}.

Inductive Op :=
| Op_setDecoderFilterCallbacks
| Op_decodeHeaders (check : CheckOutcome) (headers : HeaderMap)
                   (end_stream : bool)
| Op_decodeData (data : string) (end_stream : bool)
| Op_decodeTrailers (trailers : HeaderMap)
| Op_resetStream
| Op_checkDone (status : Status)
| Op_log (request_headers response_headers : option HeaderMap)
| Op_reportDone (status : Status).

Fixpoint run_reset_callbacks (fs : list ResetStreamCallback) : Method unit :=
  match fs with
  | [] => ret tt
  | f :: fs' => run_reset_callback f;; run_reset_callbacks fs'
  end.

Definition step (op : Op) (w : World) : World * list Event :=
  match op with
  | Op_setDecoderFilterCallbacks =>
      let r := setDecoderFilterCallbacks (stream w) (instance_of w) in
      (mkWorld (after r) (returned r), trace_of r)
  | Op_decodeHeaders check headers end_stream =>
      let r := decodeHeaders (stream w) check headers end_stream
                 (instance_of w) in
      (mkWorld (after r) (stream w), trace_of r)
  | Op_decodeData data end_stream =>
      let r := decodeData data end_stream (instance_of w) in
      (mkWorld (after r) (stream w), trace_of r)
  | Op_decodeTrailers trailers =>
      let r := decodeTrailers trailers (instance_of w) in
      (mkWorld (after r) (stream w), trace_of r)
  | Op_resetStream =>
      let r := run_reset_callbacks (reset_stream_callbacks (stream w))
                 (instance_of w) in
      (mkWorld (after r) (stream w), trace_of r)
  | Op_checkDone status =>
      let r := posted_by_wrapper status (instance_of w) in
      (mkWorld (after r) (stream w), trace_of r)
  | Op_log request_headers response_headers =>
      let r := log request_headers response_headers (instance_of w) in
      (mkWorld (after r) (stream w), trace_of r)
  | Op_reportDone status => (w, report_done status)
  end.

Fixpoint run (ops : list Op) (w : World) : World * list Event :=
  match ops with
  | [] => (w, [])
  | op :: ops' =>
      let '(w1, trace1) := step op w in
      let '(w2, trace2) := run ops' w1 in
      (w2, trace1 ++ trace2)
  end.

(** A request starts with a new instance bound to the stream. *)
Definition start (config : Config) (indeterminate : bool)
    (callbacks : StreamDecoderFilterCallbacks) : World :=
  mkWorld (fst (Instance_new config indeterminate)) callbacks.

(** The completions an operation delivers all carry a success status. *)
Definition delivers_only_ok (op : Op) : bool :=
  match op with
  | Op_decodeHeaders (RanInFrame status) _ _ => Status_ok status
  | Op_checkDone status => Status_ok status
  | _ => true
  end.

Definition is_decodeHeaders (op : Op) : bool :=
  match op with Op_decodeHeaders _ _ _ => true | _ => false end.

(** ** Reading runs and traces *)

(** The host calls in a trace: everything but the log lines, in order. *)
Fixpoint calls (trace : list Event) : list Event :=
  match trace with
  | [] => []
  | e :: trace' => if is_log e then calls trace' else e :: calls trace'
  end.

(** The [origin_user] that [decodeHeaders] computes from [ssl()]. *)
Definition origin_user_of (cb : StreamDecoderFilterCallbacks) : string :=
  match ssl cb with
  | Some connection => uriSanPeerCertificate connection
  | None => ""
  end.

(** The header map [decodeHeaders] leaves behind: the forwarding header
    is appended when the blob is non-empty and forwarding is not switched
    off. *)
Definition forwarded (cb : StreamDecoderFilterCallbacks) (config : Config)
    (headers : HeaderMap) : HeaderMap :=
  if negb (string_empty (forward_attributes config))
     && negb (forward_disabled cb)
  then addStatic headers kIstioAttributeHeader (forward_attributes config)
  else headers.


Definition is_checkDone (op : Op) : bool :=
  match op with Op_checkDone _ => true | _ => false end.

Definition is_setDecoderFilterCallbacks (op : Op) : bool :=
  match op with Op_setDecoderFilterCallbacks => true | _ => false end.

Definition is_body_or_trailer (op : Op) : bool :=
  match op with
  | Op_decodeData _ _ | Op_decodeTrailers _ => true
  | _ => false
  end.

(** The status an operation hands to [completeCheck], if any. *)
Definition delivered (op : Op) : option Status :=
  match op with
  | Op_decodeHeaders (RanInFrame status) _ _ => Some status
  | Op_checkDone status => Some status
  | _ => None
  end.

(** How many operations of a kind a run holds. *)
Fixpoint count_ops (p : Op -> bool) (ops : list Op) : nat :=
  match ops with
  | [] => 0%nat
  | op :: ops' => ((if p op then 1 else 0) + count_ops p ops')%nat
  end.


Definition sample_chunks : list Op :=
  [Op_decodeData "chunk" false; Op_decodeTrailers []].

(** ** The filter factory *)

(** [HttpFilterType] of the host. *)
Inductive HttpFilterType :=
| HttpFilterType_Decoder
| HttpFilterType_Encoder
| HttpFilterType_Both.

Definition HttpFilterType_eqb (a b : HttpFilterType) : bool :=
  match a, b with
  | HttpFilterType_Decoder, HttpFilterType_Decoder
  | HttpFilterType_Encoder, HttpFilterType_Encoder
  | HttpFilterType_Both, HttpFilterType_Both => true
  | _, _ => false
  end.

(** What the factory callback does on [FilterChainFactoryCallbacks]. *)
Inductive Registration :=
| AddStreamDecoderFilter (instance : Instance)
| AddAccessLogHandler (instance : Instance).

(** [HttpFilterFactoryCb]: null, or the closure
    [[mixer_config](callbacks) { ... }], which is given by the
    configuration it captures. *)
Definition HttpFilterFactoryCb := option Config.

(** The body of the closure: one new [Instance] on the captured
    configuration, registered as decoder filter and as access log
    handler. *)
Definition filter_factory_cb (mixer_config : Config) (indeterminate : bool)
  : list Registration * list Event :=
  let '(instance, trace) := Instance_new mixer_config indeterminate in
  ([AddStreamDecoderFilter instance; AddAccessLogHandler instance], trace).

(** [MixerConfig::tryCreateFilterFactory(type, name, config, _, server)].
    [None] when the constructor of [Config] throws. *)
Definition tryCreateFilterFactory (type : HttpFilterType) (name : string)
    (config : Json_Object) : option (HttpFilterFactoryCb * list Event) :=
  if negb (HttpFilterType_eqb type HttpFilterType_Decoder)
     || negb (String.eqb name "mixer")
  then Some (None, [])
  else
    match Config_new config with
    | None => None
    | Some (mixer_config, trace) => Some (Some mixer_config, trace)
    end.

(** Unfolding a method down to pairs of return value, instance and
    trace. *)
Ltac method_unfold :=
  unfold posted_by_wrapper, completeCheck, decodeHeaders, decodeData,
    decodeTrailers, log, setDecoderFilterCallbacks, run_reset_callback,
    bind, ret, member, emit, set_state_, set_request_data_,
    set_initiating_call_, set_check_status_code_, set_mixer_disabled_,
    returned, after, trace_of, count in *;
  cbn -[HttpCode] in *.

Ltac method_cases :=
  method_unfold; try done;
  repeat (case_match; cbn -[HttpCode] in *; simplify_eq; try done).

(** ** Properties *)

(** C6: [HttpCode] returns the tabulated value on each of the seventeen
    canonical codes (success 200, cancelled 499, unknown 500,
    invalid-argument 400, deadline-exceeded 504, not-found 404,
    already-exists 409, permission-denied 403, resource-exhausted 429,
    failed-precondition 400, aborted 409, out-of-range 400,
    unimplemented 501, internal 500, unavailable 503, data-loss 500,
    unauthenticated 401) and 500 on every other integer. *)
Theorem HttpCode_table :
  (HttpCode StatusCode.OK = 200
   /\ HttpCode StatusCode.CANCELLED = 499
   /\ HttpCode StatusCode.UNKNOWN = 500
   /\ HttpCode StatusCode.INVALID_ARGUMENT = 400
   /\ HttpCode StatusCode.DEADLINE_EXCEEDED = 504
   /\ HttpCode StatusCode.NOT_FOUND = 404
   /\ HttpCode StatusCode.ALREADY_EXISTS = 409
   /\ HttpCode StatusCode.PERMISSION_DENIED = 403
   /\ HttpCode StatusCode.RESOURCE_EXHAUSTED = 429
   /\ HttpCode StatusCode.FAILED_PRECONDITION = 400
   /\ HttpCode StatusCode.ABORTED = 409
   /\ HttpCode StatusCode.OUT_OF_RANGE = 400
   /\ HttpCode StatusCode.UNIMPLEMENTED = 501
   /\ HttpCode StatusCode.INTERNAL = 500
   /\ HttpCode StatusCode.UNAVAILABLE = 503
   /\ HttpCode StatusCode.DATA_LOSS = 500
   /\ HttpCode StatusCode.UNAUTHENTICATED = 401)
  /\ (forall code : Z, ~ In code StatusCode.all -> HttpCode code = 500).
Proof using Type.
  split.
  - repeat split; reflexivity.
  - intros code Hout. unfold HttpCode.
    repeat match goal with
    | |- context [code =? ?c] =>
        destruct (Z.eqb_spec code c) as [Heq | _];
        [ exfalso; apply Hout; rewrite Heq; unfold StatusCode.all;
          repeat first [ left; reflexivity | right ] | ]
    end.
    reflexivity.
Qed.

Lemma mixer_disabled_route_option cb :
  mixer_disabled cb = false <->
  route_option cb kJsonNameMixerSwitch = Some "on".
Proof using Type.
  unfold mixer_disabled, route_option.
  destruct (route cb) as [r|]; simpl; [|split; discriminate].
  destruct (routeEntry r) as [entry|]; simpl; [|split; discriminate].
  destruct (opaqueConfig entry !! kJsonNameMixerSwitch) as [value|];
    [|split; discriminate].
  destruct (String.eqb_spec value "on") as [->|Hne]; split; try done.
  intros [=]. contradiction.
Qed.

Lemma forward_disabled_route_option cb :
  forward_disabled cb = true <->
  route_option cb kJsonNameForwardSwitch = Some "off".
Proof using Type.
  unfold forward_disabled, route_option.
  destruct (route cb) as [r|]; simpl; [|split; discriminate].
  destruct (routeEntry r) as [entry|]; simpl; [|split; discriminate].
  destruct (opaqueConfig entry !! kJsonNameForwardSwitch) as [value|];
    [|split; discriminate].
  destruct (String.eqb_spec value "off") as [->|Hne]; split; try done.
  intros [=]. contradiction.
Qed.

(** C7: policy control is enabled exactly when the route's opaque
    configuration maps [mixer_control] to the literal [on], and
    forwarding is disabled exactly when it maps [mixer_forward] to the
    literal [off]; without a route, a route entry or the key, and with
    any other value, each switch has its default (control disabled,
    forwarding enabled). *)
Theorem route_switches (cb : StreamDecoderFilterCallbacks) :
  (mixer_disabled cb = false <->
     route_option cb kJsonNameMixerSwitch = Some "on")
  /\ (forward_disabled cb = true <->
       route_option cb kJsonNameForwardSwitch = Some "off")
  /\ (route cb = None ->
       mixer_disabled cb = true /\ forward_disabled cb = false)
  /\ (forall r, route cb = Some r -> routeEntry r = None ->
       mixer_disabled cb = true /\ forward_disabled cb = false)
  /\ (route_option cb kJsonNameMixerSwitch = None ->
       mixer_disabled cb = true)
  /\ (route_option cb kJsonNameForwardSwitch = None ->
       forward_disabled cb = false)
  /\ (forall value, route_option cb kJsonNameMixerSwitch = Some value ->
       value <> "on" -> mixer_disabled cb = true)
  /\ (forall value, route_option cb kJsonNameForwardSwitch = Some value ->
       value <> "off" -> forward_disabled cb = false).
Proof using Type.
  pose proof (mixer_disabled_route_option cb) as Hm.
  pose proof (forward_disabled_route_option cb) as Hf.
  split_and!; [exact Hm | exact Hf | | | | | | ].
  - unfold mixer_disabled, forward_disabled. by intros ->.
  - unfold mixer_disabled, forward_disabled. by intros r -> ->.
  - intros Hnone. apply not_false_is_true. intros E.
    apply Hm in E. congruence.
  - intros Hnone. apply not_true_is_false. intros E.
    apply Hf in E. congruence.
  - intros value Hv Hne. apply not_false_is_true. intros E.
    apply Hm in E. congruence.
  - intros value Hv Hne. apply not_true_is_false. intros E.
    apply Hf in E. congruence.
Qed.

(** What a completion does to an instance that is already in
    [Responded], outside the issuing frame. *)
Lemma completeCheck_from_Responded status inst :
  state_ inst = Responded -> initiating_call_ inst = false ->
  let r := completeCheck status inst in
  state_ (after r) = Complete
  /\ trace_of r =
       [LogDebug "Called Mixer::Instance : check complete {}";
        ContinueDecoding].
Proof using Type.
  destruct inst; cbn; intros -> ->. method_unfold.
  rewrite andb_false_r. done.
Qed.

(** C2: a completion with a failure status in a state other than
    [Responded] moves to [Responded], stores the transport code of the
    failure, sends one local reply with that code and the status text,
    and does not resume; a completion in state [Responded] sends no
    reply. *)
Theorem completeCheck_failure :
  (forall status inst,
     Status_ok status = false -> state_ inst <> Responded ->
     let r := completeCheck status inst in
     state_ (after r) = Responded
     /\ check_status_code_ (after r) = HttpCode (error_code status)
     /\ trace_of r =
          [LogDebug "Called Mixer::Instance : check complete {}";
           SendLocalReply (HttpCode (error_code status)) (ToString status)]
     /\ count is_ContinueDecoding (trace_of r) = 0%nat)
  /\ (forall status inst,
       state_ inst = Responded ->
       count is_SendLocalReply (trace_of (completeCheck status inst))
       = 0%nat).
Proof using Type.
  split.
  - intros status inst Hfail Hstate. destruct inst as [? ? ? st ? ? ?].
    cbn in Hstate. method_unfold. rewrite Hfail.
    destruct st; try done.
  - intros status inst Hstate. destruct inst; cbn in Hstate; subst.
    method_unfold. rewrite andb_false_r. by destruct initiating_call_0.
Qed.

(** C4: with policy control resolved disabled at header time the body
    and trailer hooks return Continue; otherwise they stop (the body
    hook buffering) exactly while the state is [Calling]; neither hook
    changes the instance. *)
Theorem body_and_trailer_hooks :
  (forall cb check headers end_stream inst,
     mixer_disabled_
       (after (decodeHeaders cb check headers end_stream inst))
     = mixer_disabled cb)
  /\ (forall data end_stream trailers inst,
       mixer_disabled_ inst = true ->
       returned (decodeData data end_stream inst)
         = FilterDataStatus_Continue
       /\ returned (decodeTrailers trailers inst)
         = FilterTrailersStatus_Continue)
  /\ (forall data end_stream trailers inst,
       mixer_disabled_ inst = false -> state_ inst = Calling ->
       returned (decodeData data end_stream inst)
         = FilterDataStatus_StopIterationAndBuffer
       /\ returned (decodeTrailers trailers inst)
         = FilterTrailersStatus_StopIteration)
  /\ (forall data end_stream trailers inst,
       mixer_disabled_ inst = false -> state_ inst <> Calling ->
       returned (decodeData data end_stream inst)
         = FilterDataStatus_Continue
       /\ returned (decodeTrailers trailers inst)
         = FilterTrailersStatus_Continue)
  /\ (forall data end_stream trailers inst,
       after (decodeData data end_stream inst) = inst
       /\ after (decodeTrailers trailers inst) = inst).
Proof using Type.
  split_and!.
  - intros cb check headers end_stream inst. destruct inst.
    method_unfold. destruct (mixer_disabled cb) eqn:E; method_cases.
  - intros data end_stream trailers inst H. destruct inst; cbn in H; subst.
    by method_unfold.
  - intros data end_stream trailers inst H1 H2.
    destruct inst; cbn in H1, H2; subst. by method_unfold.
  - intros data end_stream trailers inst H1 H2.
    destruct inst as [? ? ? st ? ? ?]; cbn in H1, H2; subst.
    method_unfold. by destruct st.
  - intros data end_stream trailers inst. destruct inst. method_cases.
Qed.

(** *** Facts about one step and about runs *)

Lemma run_cons op ops w :
  run (op :: ops) w =
  (fst (run ops (fst (step op w))),
   snd (step op w) ++ snd (run ops (fst (step op w)))).
Proof using Type.
  cbn [run]. destruct (step op w) as [w1 t1]. cbn [fst snd].
  destruct (run ops w1) as [w2 t2]. reflexivity.
Qed.

Lemma run_app ops1 ops2 w :
  run (ops1 ++ ops2) w =
  (fst (run ops2 (fst (run ops1 w))),
   snd (run ops1 w) ++ snd (run ops2 (fst (run ops1 w)))).
Proof using Type.
  revert w. induction ops1 as [|op ops1 IH]; intros w.
  - cbn. by destruct (run ops2 w).
  - rewrite <- app_comm_cons, !run_cons, IH. cbn. by rewrite app_assoc.
Qed.

Lemma run_reset_callbacks_spec fs inst :
  run_reset_callbacks fs inst =
  (tt,
   match fs with
   | [] => inst
   | _ :: _ => after (set_state_ Responded inst)
   end,
   []).
Proof using Type.
  revert inst. induction fs as [|f fs IH]; intros inst; [done|].
  cbn [run_reset_callbacks]. unfold bind. destruct f.
  unfold run_reset_callback. unfold set_state_ at 1.
  rewrite IH. by destruct fs.
Qed.

Lemma step_route op w :
  route (stream (fst (step op w))) = route (stream w).
Proof using Type. by destruct op. Qed.

Lemma step_mixer_disabled op w :
  mixer_disabled (stream (fst (step op w))) = mixer_disabled (stream w).
Proof using Type. unfold mixer_disabled. by rewrite step_route. Qed.

Lemma run_mixer_disabled ops w :
  mixer_disabled (stream (fst (run ops w))) = mixer_disabled (stream w).
Proof using Type.
  revert w. induction ops as [|op ops IH]; intros w; [done|].
  rewrite run_cons. cbn [fst]. by rewrite IH, step_mixer_disabled.
Qed.

Lemma step_initiating_call op w :
  initiating_call_ (instance_of w) = false ->
  initiating_call_ (instance_of (fst (step op w))) = false.
Proof using Type.
  intros H. destruct w as [inst cb], inst. cbn in H. subst.
  destruct op; cbn [instance_of stream step fst];
    try rewrite run_reset_callbacks_spec;
    try (destruct (reset_stream_callbacks cb)); method_cases.
Qed.

Lemma run_initiating_call ops w :
  initiating_call_ (instance_of w) = false ->
  initiating_call_ (instance_of (fst (run ops w))) = false.
Proof using Type.
  revert w. induction ops as [|op ops IH]; intros w Hw; [done|].
  rewrite run_cons. cbn [fst]. by apply IH, step_initiating_call.
Qed.

Lemma completeCheck_ok_state_only status inst :
  Status_ok status = true ->
  after (completeCheck status inst) = after (set_state_ Complete inst).
Proof using Type.
  intros Hok. destruct inst. method_unfold. rewrite Hok. method_cases.
Qed.

Lemma step_check_status_code op w :
  delivers_only_ok op = true ->
  check_status_code_ (instance_of (fst (step op w)))
  = check_status_code_ (instance_of w).
Proof using Type.
  intros Hok. destruct w as [inst cb], inst.
  destruct op as [ | [status|] ? ? | | | | status | | ];
    unfold delivers_only_ok in Hok; cbn [instance_of stream step fst];
    try rewrite run_reset_callbacks_spec;
    try (destruct (reset_stream_callbacks cb));
    unfold posted_by_wrapper, decodeHeaders, completeCheck;
    method_cases; rewrite Hok in *; done.
Qed.

Lemma step_report_code op w data code :
  In (HttpControl_Report data code) (snd (step op w)) ->
  code = check_status_code_ (instance_of w).
Proof using Type.
  destruct w as [inst cb], inst, op; cbn [instance_of stream step snd];
    try rewrite run_reset_callbacks_spec;
    method_cases; intros Hin;
    repeat (destruct Hin as [Hin|Hin]; simplify_eq; try done).
Qed.

Lemma count_app p trace1 trace2 :
  count p (trace1 ++ trace2) = (count p trace1 + count p trace2)%nat.
Proof using Type.
  induction trace1 as [|e trace1 IH]; [done|].
  cbn [count app]. rewrite IH. by rewrite Nat.add_assoc.
Qed.

Lemma step_request_data op w :
  request_data_ (instance_of (fst (step op w))) =
  if is_decodeHeaders op && negb (mixer_disabled (stream w))
  then Some HttpRequestData_new
  else request_data_ (instance_of w).
Proof using Type.
  destruct w as [inst cb], inst.
  destruct op; cbn [instance_of stream step fst is_decodeHeaders andb];
    try rewrite run_reset_callbacks_spec;
    try (destruct (reset_stream_callbacks cb));
    destruct (mixer_disabled cb) eqn:E; method_cases.
Qed.

Lemma run_request_data ops w :
  request_data_ (instance_of (fst (run ops w))) =
  if existsb is_decodeHeaders ops && negb (mixer_disabled (stream w))
  then Some HttpRequestData_new
  else request_data_ (instance_of w).
Proof using Type.
  revert w. induction ops as [|op ops IH]; intros w; [done|].
  rewrite run_cons. cbn [fst existsb].
  rewrite IH, step_mixer_disabled, step_request_data.
  destruct (is_decodeHeaders op), (existsb is_decodeHeaders ops),
    (mixer_disabled (stream w)); reflexivity.
Qed.

Lemma step_no_report op w :
  request_data_ (instance_of w) = None ->
  mixer_disabled (stream w) = true ->
  count is_Report (snd (step op w)) = 0%nat.
Proof using Type.
  intros Hdata Hoff. destruct w as [inst cb], inst.
  cbn in Hdata, Hoff. subst.
  destruct op; cbn [instance_of stream step snd];
    try rewrite run_reset_callbacks_spec; method_unfold;
    try rewrite Hoff; method_cases.
Qed.

Lemma run_no_report ops w :
  request_data_ (instance_of w) = None ->
  mixer_disabled (stream w) = true ->
  count is_Report (snd (run ops w)) = 0%nat.
Proof using Type.
  revert w. induction ops as [|op ops IH]; intros w Hdata Hoff; [done|].
  rewrite run_cons. cbn [snd]. rewrite count_app.
  rewrite step_no_report by done. apply IH.
  - rewrite step_request_data, Hoff. cbn. by rewrite andb_false_r.
  - by rewrite step_mixer_disabled.
Qed.

Lemma run_check_status_code ops w :
  forallb delivers_only_ok ops = true ->
  check_status_code_ (instance_of (fst (run ops w)))
  = check_status_code_ (instance_of w)
  /\ (forall data code, In (HttpControl_Report data code) (snd (run ops w)) ->
       code = check_status_code_ (instance_of w)).
Proof using Type.
  revert w. induction ops as [|op ops IH]; intros w Hok; [done|].
  cbn [forallb] in Hok. apply andb_prop in Hok as [Hop Hops].
  rewrite run_cons. cbn [fst snd].
  destruct (IH (fst (step op w)) Hops) as [IH1 IH2].
  rewrite step_check_status_code in IH1, IH2 by done.
  split; [done|]. intros data code [Hin|Hin]%in_app_or.
  - by apply step_report_code in Hin.
  - by apply IH2 in Hin.
Qed.

Lemma string_empty_false (s : string) :
  s <> "" -> string_empty s = false.
Proof using Type. by destruct s. Qed.

(** C3: with policy control enabled and a success status, a completion
    that runs inside the issuing frame leaves the state [Complete] when
    the call returns, the header hook returns Continue and never calls
    continueDecoding; when nothing ran inside the frame the header hook
    returns StopIteration without resuming, and the completion, whatever
    hooks ran in between, calls continueDecoding exactly once. *)
Theorem check_success_sync_and_async
    (cb : StreamDecoderFilterCallbacks) (headers : HeaderMap)
    (end_stream : bool) (inst : Instance) (status : Status) :
  mixer_disabled cb = false ->
  Status_ok status = true ->
  (let r := decodeHeaders cb (RanInFrame status) headers end_stream inst in
   state_ (after r) = Complete
   /\ fst (returned r) = FilterHeadersStatus_Continue
   /\ count is_ContinueDecoding (trace_of r) = 0%nat)
  /\ (let r := decodeHeaders cb Deferred headers end_stream inst in
      fst (returned r) = FilterHeadersStatus_StopIteration
      /\ state_ (after r) = Calling
      /\ count is_ContinueDecoding (trace_of r) = 0%nat
      /\ forall between : list Op,
           let w := fst (run between (mkWorld (after r) cb)) in
           let done := posted_by_wrapper status (instance_of w) in
           state_ (after done) = Complete
           /\ count is_ContinueDecoding (trace_of done) = 1%nat).
Proof using Type.
  intros Hon Hok. split.
  - destruct inst. method_unfold. rewrite Hon, Hok. method_cases.
  - assert (Hframe : initiating_call_
              (after (decodeHeaders cb Deferred headers end_stream inst))
            = false).
    { destruct inst. method_unfold. rewrite Hon. method_cases. }
    split_and!.
    + destruct inst. method_unfold. rewrite Hon. method_cases.
    + destruct inst. method_unfold. rewrite Hon. method_cases.
    + destruct inst. method_unfold. rewrite Hon. method_cases.
    + intros between w done. subst done.
      pose proof (run_initiating_call between
                    (mkWorld (after (decodeHeaders cb Deferred headers
                                       end_stream inst)) cb) Hframe) as Hw.
      fold w in Hw. destruct (instance_of w). cbn in Hw. subst.
      clear Hframe w. method_unfold. rewrite Hok. cbn. done.
Qed.

(** C5: a completion with a success status changes nothing of the
    instance but [state_]; [check_status_code_] changes only on the
    failure branch; so in a request all of whose completions succeed it
    keeps the constructor's value [HttpCode(UNKNOWN)] = 500, which is not
    the 200 of [HttpCode(OK)], and that is the code of every report, and
    the report of a request that went through the check carries it. *)
Theorem success_leaves_check_status_code :
  (forall status inst,
     Status_ok status = true ->
     after (completeCheck status inst) = after (set_state_ Complete inst))
  /\ (forall status inst,
       check_status_code_ (after (completeCheck status inst))
         <> check_status_code_ inst ->
       Status_ok status = false /\ state_ inst <> Responded)
  /\ (forall config indeterminate callbacks ops,
       forallb delivers_only_ok ops = true ->
       let r := run ops (start config indeterminate callbacks) in
       check_status_code_ (instance_of (fst r)) = 500
       /\ forall data code,
            In (HttpControl_Report data code) (snd r) -> code = 500)
  /\ (forall config indeterminate callbacks ops request_headers
             response_headers,
       forallb delivers_only_ok ops = true ->
       mixer_disabled callbacks = false ->
       existsb is_decodeHeaders ops = true ->
       let w := fst (run ops (start config indeterminate callbacks)) in
       trace_of (log request_headers response_headers (instance_of w))
       = [LogDebug "Called Mixer::Instance : {}";
          HttpControl_Report HttpRequestData_new 500])
  /\ HttpCode StatusCode.UNKNOWN = 500
  /\ HttpCode StatusCode.OK = 200.
Proof using Type.
  split_and!; [ | | | | reflexivity | reflexivity ].
  - apply completeCheck_ok_state_only.
  - intros status inst Hchanged.
    destruct (Status_ok status) eqn:Hok.
    + rewrite completeCheck_ok_state_only in Hchanged by done.
      by destruct inst.
    + split; [done|]. intros Hstate. apply Hchanged.
      destruct inst; cbn in Hstate; subst. method_unfold.
      rewrite andb_false_r. method_cases.
  - intros config indeterminate callbacks ops Hok r. subst r.
    apply (run_check_status_code ops
             (start config indeterminate callbacks) Hok).
  - intros config indeterminate callbacks ops rh rsh Hok Hon Hhdr w.
    pose proof (run_check_status_code ops
                  (start config indeterminate callbacks) Hok) as [Hc _].
    pose proof (run_request_data ops
                  (start config indeterminate callbacks)) as Hd.
    fold w in Hc, Hd. cbn [start stream] in Hd. rewrite Hhdr, Hon in Hd.
    cbn in Hc, Hd. destruct (instance_of w). cbn in Hc, Hd. subst.
    reflexivity.
Qed.

(** C8: at header arrival, with a non-empty forwarded-attribute blob and
    forwarding enabled for the route, the header hook appends exactly one
    header, [kIstioAttributeHeader] with the blob, and does so before it
    issues the check, which sees the header; with forwarding disabled for
    the route it adds no header, whatever the blob. *)
Theorem forwarding_header
    (cb : StreamDecoderFilterCallbacks) (check : CheckOutcome)
    (headers : HeaderMap) (end_stream : bool) (inst : Instance) :
  let r := decodeHeaders cb check headers end_stream inst in
  let blob := forward_attributes (config_ inst) in
  (blob <> "" -> forward_disabled cb = false ->
     snd (returned r) = headers ++ [(kIstioAttributeHeader, blob)]
     /\ count is_AddStatic (trace_of r) = 1%nat
     /\ (exists before rest,
           trace_of r =
           before ++ AddStatic kIstioAttributeHeader blob :: rest
           /\ count is_Check before = 0%nat)
     /\ (forall data seen user,
           In (HttpControl_Check data seen user) (trace_of r) ->
           seen = headers ++ [(kIstioAttributeHeader, blob)]))
  /\ (forward_disabled cb = true ->
       snd (returned r) = headers
       /\ count is_AddStatic (trace_of r) = 0%nat).
Proof using Type.
  intros r blob. subst r blob. split.
  - intros Hblob%string_empty_false Hforward.
    destruct inst as [? config ? ? ? ? ?]. cbn [config_] in *.
    method_unfold. rewrite Hblob, Hforward. unfold addStatic.
    split_and!; method_cases;
      try (exists [LogDebug "Called Mixer::Instance : {}"]; eexists;
           split; reflexivity);
      intros data seen user Hin;
      repeat (destruct Hin as [Hin|Hin]; simplify_eq; try done).
  - intros Hforward.
    destruct inst as [? config ? ? ? ? ?]. cbn [config_] in *.
    method_unfold. rewrite Hforward, andb_false_r.
    split; method_cases.
Qed.

(** C9: the log hook issues the report exactly when the request data
    exists, with the stored status code, and leaves the instance as it
    is; the request data exists exactly when the header hook ran with
    policy control enabled, so a request with control disabled yields no
    report; the done function of the report writes the one line
    "Report returns status: {}" to the log and nothing else: where it
    runs in a request, the trace gains that line, and the filter, the
    stream and every later call are as they are without it. *)
Theorem report_iff_request_data :
  (forall request_headers response_headers inst,
     let r := log request_headers response_headers inst in
     after r = inst
     /\ trace_of r =
          LogDebug "Called Mixer::Instance : {}"
            :: match request_data_ inst with
               | Some data =>
                   [HttpControl_Report data (check_status_code_ inst)]
               | None => []
               end
     /\ (count is_Report (trace_of r) = 1%nat <->
            request_data_ inst <> None)
     /\ (count is_Report (trace_of r) = 0%nat <->
            request_data_ inst = None))
  /\ (forall config indeterminate callbacks ops,
       let w := fst (run ops (start config indeterminate callbacks)) in
       request_data_ (instance_of w) <> None <->
       mixer_disabled callbacks = false
       /\ existsb is_decodeHeaders ops = true)
  /\ (forall config indeterminate callbacks ops,
       mixer_disabled callbacks = true ->
       count is_Report
         (snd (run ops (start config indeterminate callbacks))) = 0%nat)
  /\ (forall status,
       report_done status = [LogDebug "Report returns status: {}"])
  /\ (forall status ops1 ops2 w,
       let r1 := run ops1 w in
       let r := run (ops1 ++ Op_reportDone status :: ops2) w in
       fst r = fst (run (ops1 ++ ops2) w)
       /\ snd r =
            snd r1
            ++ LogDebug "Report returns status: {}"
               :: snd (run ops2 (fst r1))).
Proof using Type.
  split_and!.
  - intros rh rsh inst r. subst r. destruct inst as [? ? data ? ? ? ?].
    method_unfold. destruct data; cbn; split_and!; try done.
  - intros config indeterminate callbacks ops w. subst w.
    rewrite run_request_data. cbn [start stream instance_of fst].
    cbn [Instance_new request_data_].
    destruct (existsb is_decodeHeaders ops), (mixer_disabled callbacks);
      cbn; split; try done; try (by intros [? ?]).
  - intros config indeterminate callbacks ops Hoff.
    by apply run_no_report.
  - done.
  - intros status ops1 ops2 w r1 r. subst r1 r.
    rewrite !run_app, run_cons. cbn [step report_done fst snd app]. done.
Qed.

(** C10: without a [mixer_server] entry the constructor logs an error
    and still completes, with the empty string as server address; the
    forwarded-attribute blob is the Base64 of the serialized map when the
    extracted map is non-empty and the empty string otherwise; all the
    constructor does besides building the configuration is logging. *)
Theorem Config_new_missing_server (config : Json_Object) :
  (hasObject config kJsonNameMixerServer = false ->
     exists result trace,
       Config_new config = Some (result, trace)
       /\ mixer_server (http_control result) = ""
       /\ In (LogError
                "mixer_server is required but not specified in the config: {}")
             trace)
  /\ (forall result trace,
       Config_new config = Some (result, trace) ->
       let attributes :=
         ExtractStringMap config kJsonNameForwardAttributes in
       (attributes = ∅ -> forward_attributes result = "")
       /\ (attributes <> ∅ ->
            forward_attributes result
            = Base64_encode (SerializeStringMap attributes))
       /\ forallb is_log trace = true).
Proof using Type.
  unfold Config_new, StringMap_empty. split.
  - intros ->.
    destruct (bool_decide _); cbn; do 2 eexists; split_and!;
      try reflexivity; cbn; left; reflexivity.
  - intros result trace Hnew.
    destruct (hasObject config kJsonNameMixerServer);
      [destruct (getString config kJsonNameMixerServer); [|done]|];
      case_bool_decide as Hempty; cbn in Hnew; simplify_eq; cbn;
      split_and!; try done.
Qed.

(** ** Further properties of the filter *)

Ltac unfold_codes :=
  cbv [StatusCode.OK StatusCode.CANCELLED StatusCode.UNKNOWN
       StatusCode.INVALID_ARGUMENT StatusCode.DEADLINE_EXCEEDED
       StatusCode.NOT_FOUND StatusCode.ALREADY_EXISTS
       StatusCode.PERMISSION_DENIED StatusCode.RESOURCE_EXHAUSTED
       StatusCode.FAILED_PRECONDITION StatusCode.ABORTED
       StatusCode.OUT_OF_RANGE StatusCode.UNIMPLEMENTED StatusCode.INTERNAL
       StatusCode.UNAVAILABLE StatusCode.DATA_LOSS
       StatusCode.UNAUTHENTICATED] in *.

Lemma HttpCode_cases code :
  (code = StatusCode.OK /\ HttpCode code = 200)
  \/ (code <> StatusCode.OK /\ 400 <= HttpCode code <= 504).
Proof using Type.
  unfold HttpCode.
  repeat match goal with
  | |- context [code =? ?c] => destruct (Z.eqb_spec code c)
  end; unfold_codes; lia.
Qed.

Lemma HttpCode_failure status :
  Status_ok status = false -> 400 <= HttpCode (error_code status) <= 504.
Proof using Type.
  unfold Status_ok. intros Hfail%Z.eqb_neq.
  destruct (HttpCode_cases (error_code status)) as [[? _]|[_ ?]]; done.
Qed.

(** X1: [HttpCode] returns 200 for [OK] only; every other code, inside
    or outside the enumeration, maps into 400..504. *)
Theorem HttpCode_success_only_for_OK (code : Z) :
  (HttpCode code = 200 <-> code = StatusCode.OK)
  /\ (code <> StatusCode.OK -> 400 <= HttpCode code <= 504)
  /\ 200 <= HttpCode code <= 504.
Proof using Type.
  destruct (HttpCode_cases code) as [[Hc Hv]|[Hc Hv]];
    split_and!; try split; try done; lia.
Qed.

(** *** What single steps do *)

Lemma step_ssl op w : ssl (stream (fst (step op w))) = ssl (stream w).
Proof using Type. by destruct op. Qed.

Lemma run_ssl ops w : ssl (stream (fst (run ops w))) = ssl (stream w).
Proof using Type.
  revert w. induction ops as [|op ops IH]; intros w; [done|].
  rewrite run_cons. cbn [fst]. by rewrite IH, step_ssl.
Qed.

Lemma calls_app trace1 trace2 :
  calls (trace1 ++ trace2) = calls trace1 ++ calls trace2.
Proof using Type.
  induction trace1 as [|e trace1 IH]; [done|].
  cbn [calls app]. rewrite IH. by destruct (is_log e).
Qed.

Lemma count_calls p trace :
  (forall e, is_log e = true -> p e = false) ->
  count p (calls trace) = count p trace.
Proof using Type.
  intros Hp. induction trace as [|e trace IH]; [done|].
  cbn [calls count]. destruct (is_log e) eqn:E.
  - by rewrite (Hp e E), IH.
  - cbn [count]. by rewrite IH.
Qed.

Lemma body_or_trailer_step op w :
  is_body_or_trailer op = true ->
  fst (step op w) = w /\ calls (snd (step op w)) = [].
Proof using Type.
  destruct w as [inst cb], inst, op; try done; intros _;
    cbn [step instance_of stream]; method_cases.
Qed.

Lemma body_or_trailer_run ops w :
  forallb is_body_or_trailer ops = true ->
  fst (run ops w) = w /\ calls (snd (run ops w)) = [].
Proof using Type.
  revert w. induction ops as [|op ops IH]; intros w Hops; [done|].
  cbn [forallb] in Hops. apply andb_prop in Hops as [Hop Hops].
  rewrite run_cons. cbn [fst snd].
  destruct (body_or_trailer_step op w Hop) as [-> Hcalls].
  destruct (IH w Hops) as [-> Hrest].
  by rewrite calls_app, Hcalls, Hrest.
Qed.


Lemma step_checks op w :
  count is_Check (snd (step op w))
  = (if is_decodeHeaders op && negb (mixer_disabled (stream w))
     then 1 else 0)%nat
  /\ (forall data seen user,
        In (HttpControl_Check data seen user) (snd (step op w)) ->
        user = origin_user_of (stream w)
        /\ exists check headers end_stream,
             op = Op_decodeHeaders check headers end_stream
             /\ seen = forwarded (stream w) (config_ (instance_of w))
                        headers).
Proof using Type.
  destruct w as [inst cb], inst.
  destruct op; cbn [step instance_of stream fst snd is_decodeHeaders andb];
    try rewrite run_reset_callbacks_spec;
    unfold forwarded, origin_user_of;
    destruct (mixer_disabled cb) eqn:Hoff;
    method_unfold; try rewrite Hoff;
    (split; [method_cases|]); intros d seen user;
    method_cases; intros Hin;
    repeat (destruct Hin as [Hin|Hin]; simplify_eq; try done);
    (split; [done|]); do 3 eexists; (split; [reflexivity|]); done.
Qed.

(** X3: with policy control enabled the filter issues one check per
    header arrival and none otherwise; each check is handed the header
    map of a header arrival after forwarding and, as origin user, the URI
    SAN of the peer certificate, or the empty string on a connection
    without TLS. *)
Theorem one_check_per_header_arrival (ops : list Op) (w : World) :
  count is_Check (snd (run ops w))
  = (if mixer_disabled (stream w) then 0
     else count_ops is_decodeHeaders ops)%nat
  /\ (forall data seen user,
        In (HttpControl_Check data seen user) (snd (run ops w)) ->
        user = origin_user_of (stream w)
        /\ exists check headers end_stream,
             In (Op_decodeHeaders check headers end_stream) ops
             /\ seen = forwarded (stream w) (config_ (instance_of w))
                        headers).
Proof using Type.
  assert (Hconfig : forall op w0,
    config_ (instance_of (fst (step op w0))) = config_ (instance_of w0)).
  { intros op [inst cb]. destruct inst.
    destruct op; cbn [step instance_of stream fst];
      try rewrite run_reset_callbacks_spec;
      try (destruct (reset_stream_callbacks cb)); method_cases. }
  revert w. induction ops as [|op ops IH]; intros w.
  { cbn. split; [by destruct (mixer_disabled _)|]. by intros. }
  rewrite run_cons. cbn [snd count_ops]. rewrite count_app.
  destruct (step_checks op w) as [Hcount Hseen].
  destruct (IH (fst (step op w))) as [IHcount IHseen].
  rewrite Hcount, IHcount, step_mixer_disabled. split.
  - destruct (is_decodeHeaders op), (mixer_disabled (stream w)); cbn; lia.
  - intros data seen user [Hin|Hin]%in_app_or.
    + destruct (Hseen _ _ _ Hin) as (-> & check & headers & es & -> & ->).
      split; [done|].
      exists check, headers, es. split; [by left | done].
    + destruct (IHseen _ _ _ Hin)
        as (-> & check & headers & es & Hop & ->).
      split.
      { unfold origin_user_of. by rewrite step_ssl. }
      exists check, headers, es. split; [by right|].
      unfold forwarded, forward_disabled.
      by rewrite Hconfig, step_route.
Qed.

(** X4: when the check fails while [decodeHeaders] is still in the
    issuing frame, the header hook returns StopIteration with the state
    [Responded] and the failure's transport code stored; its host calls
    are the forwarding header (if any), the check and one local reply, in
    this order, and it never resumes. *)
Theorem failure_inside_the_issuing_frame
    (cb : StreamDecoderFilterCallbacks) (headers : HeaderMap)
    (end_stream : bool) (inst : Instance) (status : Status) :
  mixer_disabled cb = false ->
  Status_ok status = false ->
  let r := decodeHeaders cb (RanInFrame status) headers end_stream inst in
  let seen := forwarded cb (config_ inst) headers in
  returned r = (FilterHeadersStatus_StopIteration, seen)
  /\ state_ (after r) = Responded
  /\ initiating_call_ (after r) = false
  /\ check_status_code_ (after r) = HttpCode (error_code status)
  /\ (exists added,
        calls (trace_of r) =
        added ++
        [HttpControl_Check HttpRequestData_new seen (origin_user_of cb);
         SendLocalReply (HttpCode (error_code status)) (ToString status)]
        /\ (added = [] \/
             added = [AddStatic kIstioAttributeHeader
                        (forward_attributes (config_ inst))])).
Proof using Type.
  intros Hon Hfail r seen. subst r seen.
  destruct inst as [? config ? ? ? ? ?]. unfold forwarded, origin_user_of.
  cbn [config_]. method_unfold. rewrite Hon, Hfail.
  destruct (negb (string_empty (forward_attributes config))
            && negb (forward_disabled cb)); cbn -[HttpCode];
    split_and!; try done.
  - exists [AddStatic kIstioAttributeHeader (forward_attributes config)].
    split; [done | by right].
  - exists []. split; [done | by left].
Qed.

Lemma step_no_resume op w :
  is_checkDone op = false ->
  count is_ContinueDecoding (snd (step op w)) = 0%nat.
Proof using Type.
  destruct w as [inst cb], inst.
  destruct op; try done; intros _; cbn [step instance_of stream fst snd];
    try rewrite run_reset_callbacks_spec; method_cases.
Qed.

(** X5: the stream is resumed from a posted completion only: a run
    without [Op_checkDone] never calls continueDecoding, not even when
    the check completes inside [decodeHeaders]; and [initiating_call_] is
    false again after every hook. *)
Theorem resume_only_from_posted_completion (ops : list Op) (w : World) :
  (existsb is_checkDone ops = false ->
   count is_ContinueDecoding (snd (run ops w)) = 0%nat)
  /\ (initiating_call_ (instance_of w) = false ->
      initiating_call_ (instance_of (fst (run ops w))) = false).
Proof using Type.
  split; [|apply run_initiating_call].
  revert w. induction ops as [|op ops IH]; intros w Hops; [done|].
  cbn [existsb] in Hops. apply orb_false_elim in Hops as [Hop Hops].
  rewrite run_cons. cbn [snd]. rewrite count_app.
  by rewrite step_no_resume, IH.
Qed.

Lemma step_reset_stream_callbacks op w :
  reset_stream_callbacks (stream (fst (step op w)))
  = reset_stream_callbacks (stream w)
    ++ (if is_setDecoderFilterCallbacks op then [SetResponded] else []).
Proof using Type.
  destruct op; cbn [step stream fst is_setDecoderFilterCallbacks];
    try (by rewrite app_nil_r).
  by destruct w as [inst cb].
Qed.

Lemma run_reset_stream_callbacks ops w :
  existsb is_setDecoderFilterCallbacks ops = true ->
  reset_stream_callbacks (stream (fst (run ops w))) <> [].
Proof using Type.
  assert (Hkeep : forall ops w,
    reset_stream_callbacks (stream w) <> [] ->
    reset_stream_callbacks (stream (fst (run ops w))) <> []).
  { clear. intros ops. induction ops as [|op ops IH]; intros w Hw; [done|].
    rewrite run_cons. cbn [fst]. apply IH.
    rewrite step_reset_stream_callbacks.
    by destruct (reset_stream_callbacks (stream w)). }
  revert w. induction ops as [|op ops IH]; intros w Hops; [done|].
  rewrite run_cons. cbn [fst]. cbn [existsb] in Hops.
  destruct (is_setDecoderFilterCallbacks op) eqn:Hop.
  - apply Hkeep. rewrite step_reset_stream_callbacks, Hop.
    by destruct (reset_stream_callbacks (stream w)).
  - by apply IH.
Qed.

(** X6: once [setDecoderFilterCallbacks] has run, a stream reset puts the
    state to [Responded] from whatever state the request is in, changes
    no other member and calls nothing; on a stream without a registered
    callback a reset leaves the filter as it is. *)
Theorem reset_forces_Responded (ops : list Op) (w : World) :
  (existsb is_setDecoderFilterCallbacks ops = true ->
   let w1 := fst (run ops w) in
   step Op_resetStream w1
   = (mkWorld (after (set_state_ Responded (instance_of w1))) (stream w1),
      []))
  /\ (reset_stream_callbacks (stream w) = [] ->
      step Op_resetStream w = (w, [])).
Proof using Type.
  split.
  - intros Hset%(run_reset_stream_callbacks ops w) w1. fold w1 in Hset.
    cbn [step]. rewrite run_reset_callbacks_spec.
    by destruct (reset_stream_callbacks (stream w1)).
  - intros Hnone. cbn [step]. rewrite run_reset_callbacks_spec, Hnone.
    by destruct w.
Qed.

Ltac failure_branch :=
  match goal with
  | H : negb (Status_ok ?status) && _ = true |- _ =>
      let Hfail := fresh "Hfail" in
      assert (Hfail : Status_ok status = false)
        by (destruct (Status_ok status); [discriminate H | reflexivity])
  end.

Lemma step_local_reply op w code body :
  In (SendLocalReply code body) (snd (step op w)) ->
  exists status,
    delivered op = Some status
    /\ Status_ok status = false
    /\ code = HttpCode (error_code status)
    /\ body = ToString status.
Proof using Type.
  destruct w as [inst cb], inst.
  destruct op as [ | [status|] ? ? | | | | status | | ];
    cbn [step instance_of stream fst snd delivered];
    try rewrite run_reset_callbacks_spec; method_cases; intros Hin;
    repeat (destruct Hin as [Hin|Hin]; simplify_eq; try done);
    failure_branch; by exists status.
Qed.

(** X7: every local reply of a run answers a failure status delivered to
    [completeCheck]: its code is that status' transport code, hence
    between 400 and 504 and never a success code, and its body is the
    status' text. *)
Theorem local_reply_only_for_failure
    (ops : list Op) (w : World) (code : Z) (body : string) :
  In (SendLocalReply code body) (snd (run ops w)) ->
  400 <= code <= 504
  /\ exists status,
       In (Some status) (map delivered ops)
       /\ Status_ok status = false
       /\ code = HttpCode (error_code status)
       /\ body = ToString status.
Proof using Type.
  revert w. induction ops as [|op ops IH]; intros w; [done|].
  rewrite run_cons. cbn [snd map]. intros [Hin|Hin]%in_app_or.
  - destruct (step_local_reply _ _ _ _ Hin) as (status & Hop & Hf & -> & ->).
    split; [by apply HttpCode_failure|].
    exists status. split_and!; try done. by left.
  - destruct (IH _ Hin) as (Hrange & status & Hop & Hrest).
    split; [done|]. exists status. split; [by right | done].
Qed.

Lemma step_code_range op w :
  400 <= check_status_code_ (instance_of w) <= 504 ->
  400 <= check_status_code_ (instance_of (fst (step op w))) <= 504.
Proof using Type.
  destruct w as [inst cb], inst. cbn [instance_of check_status_code_].
  intros Hrange.
  destruct op; cbn [step instance_of stream fst];
    try rewrite run_reset_callbacks_spec;
    try (destruct (reset_stream_callbacks cb)); method_cases;
    failure_branch; by apply HttpCode_failure.
Qed.

(** X8: the stored status code never leaves 400..504: it starts at 500
    and is only ever overwritten with the transport code of a failure.
    So every report of a request carries a code in that range, and none
    carries the 200 of a success. *)
Theorem report_code_is_never_success
    (config : Config) (indeterminate : bool)
    (callbacks : StreamDecoderFilterCallbacks) (ops : list Op) :
  let r := run ops (start config indeterminate callbacks) in
  400 <= check_status_code_ (instance_of (fst r)) <= 504
  /\ forall data code,
       In (HttpControl_Report data code) (snd r) -> 400 <= code <= 504.
Proof using Type.
  intros r. subst r.
  assert (Hinv : forall w,
    400 <= check_status_code_ (instance_of w) <= 504 ->
    400 <= check_status_code_ (instance_of (fst (run ops w))) <= 504
    /\ forall data code,
         In (HttpControl_Report data code) (snd (run ops w)) ->
         400 <= code <= 504).
  { induction ops as [|op ops IH]; intros w Hw; [done|].
    rewrite run_cons. cbn [fst snd].
    destruct (IH (fst (step op w)) (step_code_range op w Hw)) as [IH1 IH2].
    split; [done|]. intros data code [Hin|Hin]%in_app_or.
    - apply step_report_code in Hin. by subst.
    - by apply IH2 in Hin. }
  apply Hinv. cbn. lia.
Qed.

(** X9: the header map that [decodeHeaders] leaves behind depends on the
    blob and the forwarding switch alone, not on the control switch, the
    state of the request or the outcome of the check: the incoming
    entries, followed by the forwarding header exactly when the blob is
    non-empty and forwarding is not switched off.  An empty blob adds
    nothing, and a route with control disabled still gets the header. *)
Theorem forwarding_is_independent_of_control
    (cb : StreamDecoderFilterCallbacks) (check : CheckOutcome)
    (headers : HeaderMap) (end_stream : bool) (inst : Instance) :
  let r := decodeHeaders cb check headers end_stream inst in
  snd (returned r) = forwarded cb (config_ inst) headers
  /\ count is_AddStatic (trace_of r)
     = (length (forwarded cb (config_ inst) headers) - length headers)%nat
  /\ (forward_attributes (config_ inst) = "" -> snd (returned r) = headers)
  /\ (mixer_disabled cb = true ->
      returned r
      = (FilterHeadersStatus_Continue, forwarded cb (config_ inst) headers)
      /\ state_ (after r) = state_ inst).
Proof using Type.
  intros r. subst r. destruct inst as [? config ? ? ? ? ?].
  unfold forwarded, addStatic. cbn [config_].
  split_and!.
  - method_cases.
  - assert (Hcount :
      count is_AddStatic
        (trace_of (decodeHeaders cb check headers end_stream
                     (mkInstance http_control_0 config request_data_0
                        state_0 initiating_call_0 check_status_code_0
                        mixer_disabled_0)))
      = if negb (string_empty (forward_attributes config))
           && negb (forward_disabled cb)
        then 1%nat else 0%nat) by method_cases.
    rewrite Hcount.
    destruct (negb (string_empty (forward_attributes config))
              && negb (forward_disabled cb));
      [rewrite length_app; cbn [length] |]; lia.
  - intros Hempty. method_unfold. rewrite Hempty. method_cases.
  - intros Hoff. method_unfold. rewrite Hoff. method_cases.
Qed.

(** X10: between a header arrival that left the check outstanding and
    the completion, body chunks and trailers do not touch the instance
    and make no host call, the body hook answers StopIterationAndBuffer
    and the trailer hook StopIteration each time; once the completion has
    run, with whatever status, both answer Continue. *)
Theorem body_is_held_until_completion
    (cb : StreamDecoderFilterCallbacks) (headers : HeaderMap)
    (end_stream : bool) (inst : Instance) (chunks : list Op)
    (status : Status) :
  mixer_disabled cb = false ->
  forallb is_body_or_trailer chunks = true ->
  let inst1 := after (decodeHeaders cb Deferred headers end_stream inst) in
  let r := run chunks (mkWorld inst1 cb) in
  let inst2 := after (posted_by_wrapper status (instance_of (fst r))) in
  fst r = mkWorld inst1 cb
  /\ calls (snd r) = []
  /\ (forall data last,
        returned (decodeData data last (instance_of (fst r)))
        = FilterDataStatus_StopIterationAndBuffer)
  /\ (forall trailers,
        returned (decodeTrailers trailers (instance_of (fst r)))
        = FilterTrailersStatus_StopIteration)
  /\ (forall data last,
        returned (decodeData data last inst2) = FilterDataStatus_Continue)
  /\ (forall trailers,
        returned (decodeTrailers trailers inst2)
        = FilterTrailersStatus_Continue).
Proof using Type.
  intros Hon Hchunks inst1 r inst2. subst r inst2.
  destruct (body_or_trailer_run chunks (mkWorld inst1 cb) Hchunks)
    as [-> ->].
  cbn [instance_of]. subst inst1. destruct inst.
  split_and!; try done; intros; method_unfold; rewrite Hon; method_cases.
Qed.

(** X11: a check that fails after the header hook returned, with body
    chunks and trailers arriving in between, ends the request in
    [Responded]; the host calls of the whole request are the forwarding
    header (if any), the check, one local reply with the failure's
    transport code and, at log time, one report with that same code; the
    stream is never resumed. *)
Theorem failed_check_is_answered_and_reported
    (cb : StreamDecoderFilterCallbacks) (headers : HeaderMap)
    (end_stream : bool) (inst : Instance) (between : list Op)
    (status : Status) (request_headers response_headers : option HeaderMap) :
  mixer_disabled cb = false ->
  forallb is_body_or_trailer between = true ->
  Status_ok status = false ->
  let ops :=
    Op_decodeHeaders Deferred headers end_stream
      :: between
      ++ [Op_checkDone status; Op_log request_headers response_headers] in
  let r := run ops (mkWorld inst cb) in
  let code := HttpCode (error_code status) in
  state_ (instance_of (fst r)) = Responded
  /\ exists added,
       calls (snd r) =
       added ++
       [HttpControl_Check HttpRequestData_new
          (forwarded cb (config_ inst) headers) (origin_user_of cb);
        SendLocalReply code (ToString status);
        HttpControl_Report HttpRequestData_new code]
       /\ (added = [] \/
            added = [AddStatic kIstioAttributeHeader
                       (forward_attributes (config_ inst))]).
Proof using Type.
  intros Hon Hbetween Hfail ops r code. subst ops r code.
  rewrite run_cons, run_app. cbn [fst snd].
  set (w1 := fst (step (Op_decodeHeaders Deferred headers end_stream)
                    (mkWorld inst cb))).
  destruct (body_or_trailer_run between w1 Hbetween) as [-> Hcalls].
  rewrite !calls_app, Hcalls. subst w1.
  destruct inst as [? config ? ? ? ? ?]. unfold forwarded, origin_user_of.
  cbn [config_ step instance_of stream fst snd run].
  method_unfold. rewrite Hon.
  destruct (negb (string_empty (forward_attributes config))
            && negb (forward_disabled cb)); cbn -[HttpCode];
    rewrite Hfail; cbn -[HttpCode]; (split; [done|]).
  - exists [AddStatic kIstioAttributeHeader (forward_attributes config)].
    split; [done | by right].
  - exists []. split; [done | by left].
Qed.

(** X12: when the stream is reset while the check is outstanding, the
    completion that arrives afterwards, with whatever status, sends no
    local reply and does not touch the stored status code: the one
    report of the request carries the initial 500. *)
Theorem reset_keeps_the_status_code
    (config : Config) (indeterminate : bool)
    (callbacks : StreamDecoderFilterCallbacks) (headers : HeaderMap)
    (end_stream : bool) (between : list Op) (status : Status)
    (request_headers response_headers : option HeaderMap) :
  mixer_disabled callbacks = false ->
  forallb is_body_or_trailer between = true ->
  let ops :=
    [Op_setDecoderFilterCallbacks;
     Op_decodeHeaders Deferred headers end_stream]
    ++ between
    ++ [Op_resetStream; Op_checkDone status;
        Op_log request_headers response_headers] in
  let r := run ops (start config indeterminate callbacks) in
  check_status_code_ (instance_of (fst r)) = 500
  /\ count is_SendLocalReply (snd r) = 0%nat
  /\ count is_Report (snd r) = 1%nat
  /\ In (HttpControl_Report HttpRequestData_new 500) (snd r).
Proof using Type.
  intros Hon Hbetween ops r. subst ops r.
  rewrite <- (count_calls is_SendLocalReply) by (by intros []).
  rewrite <- (count_calls is_Report) by (by intros []).
  set (first := [Op_setDecoderFilterCallbacks;
                 Op_decodeHeaders Deferred headers end_stream]).
  set (final := [Op_resetStream; Op_checkDone status;
                Op_log request_headers response_headers]).
  set (w0 := start config indeterminate callbacks).
  assert (Hfirst :
    instance_of (fst (run first w0))
    = mkInstance (http_control config) config (Some HttpRequestData_new)
        Calling false 500 false
    /\ reset_stream_callbacks (stream (fst (run first w0))) <> []
    /\ count is_SendLocalReply (calls (snd (run first w0))) = 0%nat
    /\ count is_Report (calls (snd (run first w0))) = 0%nat).
  { split; [|split].
    - subst first w0. destruct callbacks as [rt ? ?].
      unfold start, mixer_disabled in *.
      cbn [run step instance_of stream fst snd Instance_new route] in *.
      method_unfold. unfold mixer_disabled. cbn [route]. rewrite Hon.
      method_cases.
    - by apply run_reset_stream_callbacks.
    - subst first w0. destruct callbacks as [rt ? ?].
      unfold start, mixer_disabled in *.
      cbn [run step instance_of stream fst snd Instance_new route] in *.
      method_unfold. unfold mixer_disabled. cbn [route]. rewrite Hon.
      method_cases. }
  destruct Hfirst as (Hinst & Hreset & Hreply & Hreport).
  assert (Hfinal : forall w,
    instance_of w
    = mkInstance (http_control config) config (Some HttpRequestData_new)
        Calling false 500 false ->
    reset_stream_callbacks (stream w) <> [] ->
    check_status_code_ (instance_of (fst (run final w))) = 500
    /\ count is_SendLocalReply (calls (snd (run final w))) = 0%nat
    /\ count is_Report (calls (snd (run final w))) = 1%nat
    /\ In (HttpControl_Report HttpRequestData_new 500)
          (snd (run final w))).
  { intros [inst1 cb1] Hi Hr. cbn [instance_of stream] in Hi, Hr.
    subst inst1 final. cbn [run step instance_of stream fst snd].
    rewrite run_reset_callbacks_spec.
    destruct (reset_stream_callbacks cb1); [done|].
    method_unfold. rewrite andb_false_r. cbn.
    split_and!; try done. auto 10. }
  rewrite run_app, run_app. cbn [fst snd].
  destruct (body_or_trailer_run between (fst (run first w0)) Hbetween)
    as [-> Hcalls].
  destruct (Hfinal (fst (run first w0)) Hinst Hreset)
    as (Hcode & Hreply2 & Hreport2 & Hin).
  rewrite !calls_app, Hcalls, !count_app, Hreply, Hreport, Hreply2, Hreport2.
  split_and!; try done. apply in_or_app. right. by apply in_or_app; right.
Qed.

(** X13: the constructor of [Config] fails exactly when [mixer_server]
    is present but not a string; when it is a string, that string becomes
    the server address and no error is logged; whenever construction
    succeeds the static attributes are the extracted [mixer_attributes]
    map, and an error line is logged exactly when [mixer_server] is
    missing. *)
Theorem Config_new_outcomes (config : Json_Object) :
  (Config_new config = None <->
     hasObject config kJsonNameMixerServer = true
     /\ getString config kJsonNameMixerServer = None)
  /\ (forall server,
       hasObject config kJsonNameMixerServer = true ->
       getString config kJsonNameMixerServer = Some server ->
       exists result trace,
         Config_new config = Some (result, trace)
         /\ mixer_server (http_control result) = server
         /\ forall fmt, ~ In (LogError fmt) trace)
  /\ (forall result trace,
       Config_new config = Some (result, trace) ->
       mixer_attributes (http_control result)
       = ExtractStringMap config kJsonNameMixerAttributes
       /\ ((exists fmt, In (LogError fmt) trace) <->
           hasObject config kJsonNameMixerServer = false)).
Proof using Type.
  unfold Config_new.
  destruct (hasObject config kJsonNameMixerServer);
    [destruct (getString config kJsonNameMixerServer) as [server|]|];
    destruct (StringMap_empty
                (ExtractStringMap config kJsonNameForwardAttributes));
    cbn; (split; [|split]).
  all: try (split; [done | by intros [? ?]]).
  all: try done.
  all: try (intros server' _ [= <-]; do 2 eexists; split_and!;
            [reflexivity | reflexivity |];
            intros fmt Hin;
            repeat (destruct Hin as [Hin|Hin]; try done)).
  all: intros result trace [= <- <-]; (split; [reflexivity|]).
  all: split; [|try done; intros _; eexists; by left].
  all: intros [fmt Hin]; repeat (destruct Hin as [Hin|Hin]; try done).
Qed.

(** X14: the factory lookup returns null, building and logging nothing,
    exactly when the filter type is not [Decoder] or the name is not
    [mixer]; otherwise it builds the configuration once (failing when
    the constructor fails) and returns a callback that, per stream,
    registers one new instance, in state [NotStarted] with no request
    data, on that shared configuration, both as decoder filter and as
    access log handler. *)
Theorem tryCreateFilterFactory_outcomes
    (type : HttpFilterType) (name : string) (config : Json_Object) :
  (tryCreateFilterFactory type name config = Some (None, []) <->
     type <> HttpFilterType_Decoder \/ name <> "mixer")
  /\ (type = HttpFilterType_Decoder -> name = "mixer" ->
      tryCreateFilterFactory type name config
      = match Config_new config with
        | None => None
        | Some (mixer_config, trace) => Some (Some mixer_config, trace)
        end)
  /\ (forall mixer_config trace indeterminate,
       tryCreateFilterFactory type name config
       = Some (Some mixer_config, trace) ->
       Config_new config = Some (mixer_config, trace)
       /\ exists instance,
            fst (filter_factory_cb mixer_config indeterminate)
            = [AddStreamDecoderFilter instance;
               AddAccessLogHandler instance]
            /\ config_ instance = mixer_config
            /\ http_control_ instance = http_control mixer_config
            /\ state_ instance = NotStarted
            /\ request_data_ instance = None
            /\ check_status_code_ instance = 500).
Proof using Type.
  unfold tryCreateFilterFactory.
  destruct (String.eqb_spec name "mixer") as [->|Hname];
    destruct type; cbn [HttpFilterType_eqb negb orb];
    split_and!; try done;
    try (split; [intros _; (by left) || (by right) | done]);
    try (split; [| by intros [?|?]];
         destruct (Config_new config) as [[? ?]|]; done).
  intros mixer_config trace indeterminate.
  destruct (Config_new config) as [[c t]|]; [|done].
  intros [= <- <-]. split; [done|]. eexists. by split_and!.
Qed.

End Filter.

(** ** The statements at concrete requests *)

(** C1: a completion that arrives when the state is [Responded] should
    leave the state [Responded] and should not resume the stream.  The
    filter does otherwise: after a stream reset with a check outstanding
    the state is [Responded], and the completion, be its status a success
    or a failure, sets the state to [Complete] and calls continueDecoding
    once. *)
Theorem completion_after_reset_resumes :
  let before :=
    [Op_setDecoderFilterCallbacks;
     Op_decodeHeaders Deferred Sample.request_headers false;
     Op_resetStream] in
  let w :=
    fst (run Sample.header_name Sample.to_string before
           (start Sample.config false Sample.control_on)) in
  let on_success :=
    posted_by_wrapper Sample.to_string Sample.success (instance_of w) in
  let on_failure :=
    posted_by_wrapper Sample.to_string Sample.permission_denied
      (instance_of w) in
  state_ (instance_of w) = Responded
  /\ state_ (after on_success) = Complete
  /\ count is_ContinueDecoding (trace_of on_success) = 1%nat
  /\ state_ (after on_failure) = Complete
  /\ count is_ContinueDecoding (trace_of on_failure) = 1%nat
  /\ count is_SendLocalReply (trace_of on_failure) = 0%nat.
Proof. by vm_compute. Qed.

Lemma completeCheck_failure_witness :
  (Status_ok Sample.permission_denied = false
   /\ state_ (Sample.instance_in Calling) <> Responded
   /\ let r := completeCheck Sample.to_string Sample.permission_denied
                 (Sample.instance_in Calling) in
      state_ (after r) = Responded
      /\ check_status_code_ (after r) = 403
      /\ trace_of r =
           [LogDebug "Called Mixer::Instance : check complete {}";
            SendLocalReply 403 "PERMISSION_DENIED: not allowed"]
      /\ count is_ContinueDecoding (trace_of r) = 0%nat)
  /\ (state_ (Sample.instance_in Responded) = Responded
      /\ count is_SendLocalReply
           (trace_of (completeCheck Sample.to_string Sample.permission_denied
                        (Sample.instance_in Responded))) = 0%nat).
Proof.
  split.
  - split; [reflexivity|]. split; [discriminate|].
    apply (proj1 (completeCheck_failure Sample.to_string)
             Sample.permission_denied (Sample.instance_in Calling));
      [reflexivity | discriminate].
  - split; [reflexivity|].
    apply (proj2 (completeCheck_failure Sample.to_string)
             Sample.permission_denied (Sample.instance_in Responded)).
    reflexivity.
Defined.

Lemma check_success_sync_and_async_witness :
  mixer_disabled Sample.control_on = false
  /\ Status_ok Sample.success = true
  /\ (let r := decodeHeaders Sample.header_name Sample.to_string
                 Sample.control_on (RanInFrame Sample.success)
                 Sample.request_headers false
                 (Sample.instance_in NotStarted) in
      state_ (after r) = Complete
      /\ fst (returned r) = FilterHeadersStatus_Continue
      /\ count is_ContinueDecoding (trace_of r) = 0%nat)
  /\ (let r := decodeHeaders Sample.header_name Sample.to_string
                 Sample.control_on Deferred Sample.request_headers false
                 (Sample.instance_in NotStarted) in
      fst (returned r) = FilterHeadersStatus_StopIteration
      /\ state_ (after r) = Calling
      /\ count is_ContinueDecoding (trace_of r) = 0%nat
      /\ forall between : list Op,
           let w := fst (run Sample.header_name Sample.to_string between
                           (mkWorld (after r) Sample.control_on)) in
           let done :=
             posted_by_wrapper Sample.to_string Sample.success
               (instance_of w) in
           state_ (after done) = Complete
           /\ count is_ContinueDecoding (trace_of done) = 1%nat).
Proof.
  split; [by vm_compute|]. split; [reflexivity|].
  apply (check_success_sync_and_async Sample.header_name Sample.to_string
           Sample.control_on Sample.request_headers false
           (Sample.instance_in NotStarted) Sample.success);
    [by vm_compute | reflexivity].
Defined.

Lemma body_and_trailer_hooks_witness :
  (mixer_disabled_ (Sample.instance_in Calling) = false
   /\ state_ (Sample.instance_in Calling) = Calling
   /\ returned (decodeData "chunk" false (Sample.instance_in Calling))
      = FilterDataStatus_StopIterationAndBuffer
   /\ returned (decodeTrailers [] (Sample.instance_in Calling))
      = FilterTrailersStatus_StopIteration)
  /\ (state_ (Sample.instance_in Complete) <> Calling
      /\ returned (decodeData "chunk" false (Sample.instance_in Complete))
         = FilterDataStatus_Continue
      /\ returned (decodeTrailers [] (Sample.instance_in Complete))
         = FilterTrailersStatus_Continue)
  /\ (let disabled :=
        after (decodeHeaders Sample.header_name Sample.to_string
                 Sample.no_route Deferred Sample.request_headers false
                 (Sample.instance_in NotStarted)) in
      mixer_disabled_ disabled = true
      /\ returned (decodeData "chunk" false disabled)
         = FilterDataStatus_Continue
      /\ returned (decodeTrailers [] disabled)
         = FilterTrailersStatus_Continue).
Proof.
  pose proof (body_and_trailer_hooks Sample.header_name Sample.to_string)
    as (Hfield & Hoff & Hcalling & Hother & _).
  split; [|split].
  - split; [reflexivity|]. split; [reflexivity|].
    apply (Hcalling "chunk" false [] (Sample.instance_in Calling));
      reflexivity.
  - split; [discriminate|].
    apply (Hother "chunk" false [] (Sample.instance_in Complete));
      [reflexivity | discriminate].
  - assert (Hdisabled :
      mixer_disabled_
        (after (decodeHeaders Sample.header_name Sample.to_string
                  Sample.no_route Deferred Sample.request_headers false
                  (Sample.instance_in NotStarted))) = true).
    { rewrite Hfield. reflexivity. }
    split; [exact Hdisabled|].
    apply (Hoff "chunk" false [] _ Hdisabled).
Defined.

Lemma success_leaves_check_status_code_witness :
  let allowed :=
    [Op_setDecoderFilterCallbacks;
     Op_decodeHeaders Deferred Sample.request_headers false;
     Op_decodeData "chunk" true;
     Op_checkDone Sample.success] in
  let r := run Sample.header_name Sample.to_string allowed
             (start Sample.config false Sample.control_on) in
  (Status_ok Sample.success = true
   /\ after (completeCheck Sample.to_string Sample.success
               (Sample.instance_in Calling))
      = after (set_state_ Complete (Sample.instance_in Calling)))
  /\ (forallb delivers_only_ok allowed = true
      /\ mixer_disabled Sample.control_on = false
      /\ existsb is_decodeHeaders allowed = true
      /\ check_status_code_ (instance_of (fst r)) = 500
      /\ (forall data code,
           In (HttpControl_Report data code) (snd r) -> code = 500)
      /\ trace_of (log None None (instance_of (fst r)))
         = [LogDebug "Called Mixer::Instance : {}";
            HttpControl_Report HttpRequestData_new 500]).
Proof.
  intros allowed r.
  pose proof (success_leaves_check_status_code Sample.header_name
                Sample.to_string)
    as (Hstate & _ & Hcode & Hreport & _).
  assert (Hok : forallb delivers_only_ok allowed = true) by reflexivity.
  assert (Hon : mixer_disabled Sample.control_on = false) by (by vm_compute).
  assert (Hhdr : existsb is_decodeHeaders allowed = true) by reflexivity.
  split.
  - split; [reflexivity|].
    apply (Hstate Sample.success (Sample.instance_in Calling)). reflexivity.
  - split; [exact Hok|]. split; [exact Hon|]. split; [exact Hhdr|].
    split; [|split].
    + apply (Hcode Sample.config false Sample.control_on allowed Hok).
    + apply (Hcode Sample.config false Sample.control_on allowed Hok).
    + apply (Hreport Sample.config false Sample.control_on allowed None None
               Hok Hon Hhdr).
Defined.

Lemma HttpCode_table_witness :
  ~ In 17 StatusCode.all /\ HttpCode 17 = 500.
Proof.
  assert (Hout : ~ In 17 StatusCode.all).
  { cbn. intros H. repeat (destruct H as [H|H]; [discriminate H|]).
    exact H. }
  split; [exact Hout|]. apply (proj2 HttpCode_table 17 Hout).
Defined.

Lemma route_switches_witness :
  (route_option Sample.control_on kJsonNameMixerSwitch = Some "on"
   /\ mixer_disabled Sample.control_on = false)
  /\ (route_option Sample.forward_off kJsonNameForwardSwitch = Some "off"
      /\ forward_disabled Sample.forward_off = true)
  /\ (route Sample.no_route = None
      /\ mixer_disabled Sample.no_route = true
      /\ forward_disabled Sample.no_route = false)
  /\ (route_option Sample.forward_off kJsonNameMixerSwitch = None
      /\ mixer_disabled Sample.forward_off = true).
Proof.
  split; [|split; [|split]].
  - assert (H : route_option Sample.control_on kJsonNameMixerSwitch
                = Some "on") by (by vm_compute).
    split; [exact H|].
    apply (proj2 (proj1 (route_switches Sample.control_on)) H).
  - assert (H : route_option Sample.forward_off kJsonNameForwardSwitch
                = Some "off") by (by vm_compute).
    split; [exact H|].
    apply (proj2 (proj1 (proj2 (route_switches Sample.forward_off))) H).
  - split; [reflexivity|].
    apply (proj1 (proj2 (proj2 (route_switches Sample.no_route)))).
    reflexivity.
  - assert (H : route_option Sample.forward_off kJsonNameMixerSwitch = None)
      by (by vm_compute).
    split; [exact H|].
    destruct (route_switches Sample.forward_off)
      as (_ & _ & _ & _ & Hnone & _).
    exact (Hnone H).
Defined.

Lemma forwarding_header_witness :
  let r := decodeHeaders Sample.header_name Sample.to_string
             Sample.control_on Deferred Sample.request_headers false
             (Sample.instance_in NotStarted) in
  let off := decodeHeaders Sample.header_name Sample.to_string
               Sample.forward_off Deferred Sample.request_headers false
               (Sample.instance_in NotStarted) in
  (forward_attributes (config_ (Sample.instance_in NotStarted)) <> ""
   /\ forward_disabled Sample.control_on = false
   /\ snd (returned r)
      = Sample.request_headers ++ [(Sample.header_name, "YmxvYg==")]
   /\ count is_AddStatic (trace_of r) = 1%nat)
  /\ (forward_disabled Sample.forward_off = true
      /\ snd (returned off) = Sample.request_headers
      /\ count is_AddStatic (trace_of off) = 0%nat).
Proof.
  intros r off.
  assert (Hblob : forward_attributes (config_ (Sample.instance_in NotStarted))
                  <> "") by discriminate.
  assert (Hon : forward_disabled Sample.control_on = false)
    by (by vm_compute).
  assert (Hoff : forward_disabled Sample.forward_off = true)
    by (by vm_compute).
  split.
  - split; [exact Hblob|]. split; [exact Hon|].
    destruct (proj1 (forwarding_header Sample.header_name Sample.to_string
                       Sample.control_on Deferred Sample.request_headers
                       false (Sample.instance_in NotStarted)) Hblob Hon)
      as (Hheaders & Hcount & _).
    split; [exact Hheaders | exact Hcount].
  - split; [exact Hoff|].
    exact (proj2 (forwarding_header Sample.header_name Sample.to_string
                    Sample.forward_off Deferred Sample.request_headers
                    false (Sample.instance_in NotStarted)) Hoff).
Defined.

Lemma report_iff_request_data_witness :
  let ops :=
    [Op_setDecoderFilterCallbacks;
     Op_decodeHeaders Deferred Sample.request_headers false;
     Op_decodeData "chunk" true;
     Op_log None None] in
  (mixer_disabled Sample.no_route = true
   /\ count is_Report
        (snd (run Sample.header_name Sample.to_string ops
                (start Sample.config false Sample.no_route))) = 0%nat)
  /\ (request_data_ (Sample.instance_in Complete) <> None
      /\ count is_Report
           (trace_of (log None None (Sample.instance_in Complete))) = 1%nat)
  /\ (mixer_disabled Sample.control_on = false
      /\ existsb is_decodeHeaders ops = true
      /\ request_data_
           (instance_of
              (fst (run Sample.header_name Sample.to_string ops
                      (start Sample.config false Sample.control_on))))
         <> None).
Proof.
  intros ops.
  pose proof (report_iff_request_data Sample.header_name Sample.to_string)
    as (Hlog & Hdata & Hnone & _).
  split; [|split].
  - assert (Hoff : mixer_disabled Sample.no_route = true) by reflexivity.
    split; [exact Hoff|].
    exact (Hnone Sample.config false Sample.no_route ops Hoff).
  - assert (Hsome : request_data_ (Sample.instance_in Complete) <> None)
      by discriminate.
    split; [exact Hsome|].
    destruct (Hlog None None (Sample.instance_in Complete))
      as (_ & _ & Hone & _).
    apply Hone. exact Hsome.
  - assert (Hon : mixer_disabled Sample.control_on = false)
      by (by vm_compute).
    assert (Hhdr : existsb is_decodeHeaders ops = true) by reflexivity.
    split; [exact Hon|]. split; [exact Hhdr|].
    apply (Hdata Sample.config false Sample.control_on ops).
    split; [exact Hon | exact Hhdr].
Defined.

Lemma Config_new_missing_server_witness :
  hasObject Sample.json_without_server kJsonNameMixerServer = false
  /\ exists result trace,
       Config_new Sample.extract Sample.serialize Sample.base64
         Sample.json_without_server = Some (result, trace)
       /\ mixer_server (http_control result) = ""
       /\ In (LogError
                "mixer_server is required but not specified in the config: {}")
             trace.
Proof.
  split; [reflexivity|].
  apply (proj1 (Config_new_missing_server Sample.extract Sample.serialize
                  Sample.base64 Sample.json_without_server)).
  reflexivity.
Defined.

(** ** The further properties at concrete requests *)

Lemma HttpCode_success_only_for_OK_witness :
  StatusCode.NOT_FOUND <> StatusCode.OK
  /\ 400 <= HttpCode StatusCode.NOT_FOUND <= 504.
Proof.
  assert (H : StatusCode.NOT_FOUND <> StatusCode.OK) by discriminate.
  split; [exact H|].
  exact (proj1 (proj2 (HttpCode_success_only_for_OK StatusCode.NOT_FOUND))
           H).
Defined.


Lemma one_check_per_header_arrival_witness :
  let w := start Sample.config false SampleMore.control_on_tls in
  let ops := [Op_decodeHeaders Deferred Sample.request_headers false] in
  let seen := Sample.request_headers ++ [(Sample.header_name, "YmxvYg==")] in
  let check :=
    HttpControl_Check HttpRequestData_new seen
      "spiffe://cluster.local/ns/a" in
  In check (snd (run Sample.header_name Sample.to_string ops w))
  /\ "spiffe://cluster.local/ns/a"
     = origin_user_of SampleMore.control_on_tls.
Proof.
  intros w ops seen check.
  assert (Hin : In check
                  (snd (run Sample.header_name Sample.to_string ops w))).
  { vm_compute. auto 10. }
  split; [exact Hin|].
  exact (proj1 (proj2 (one_check_per_header_arrival
                         Sample.header_name Sample.to_string ops w)
                  _ _ _ Hin)).
Defined.

Lemma failure_inside_the_issuing_frame_witness :
  let r := decodeHeaders Sample.header_name Sample.to_string
             Sample.control_on (RanInFrame Sample.permission_denied)
             Sample.request_headers false (Sample.instance_in NotStarted) in
  mixer_disabled Sample.control_on = false
  /\ Status_ok Sample.permission_denied = false
  /\ fst (returned r) = FilterHeadersStatus_StopIteration
  /\ state_ (after r) = Responded
  /\ check_status_code_ (after r) = 403.
Proof.
  intros r.
  assert (Hon : mixer_disabled Sample.control_on = false)
    by (by vm_compute).
  assert (Hfail : Status_ok Sample.permission_denied = false)
    by reflexivity.
  split; [exact Hon|]. split; [exact Hfail|].
  destruct (failure_inside_the_issuing_frame Sample.header_name
              Sample.to_string Sample.control_on Sample.request_headers
              false (Sample.instance_in NotStarted)
              Sample.permission_denied Hon Hfail)
    as (Hret & Hstate & _ & Hcode & _).
  split; [|split; [exact Hstate | exact Hcode]].
  fold r in Hret. rewrite Hret. reflexivity.
Defined.

Lemma resume_only_from_posted_completion_witness :
  let ops :=
    [Op_decodeHeaders (RanInFrame Sample.success) Sample.request_headers
       false;
     Op_decodeData "chunk" true] in
  existsb is_checkDone ops = false
  /\ count is_ContinueDecoding
       (snd (run Sample.header_name Sample.to_string ops
               (start Sample.config false Sample.control_on))) = 0%nat.
Proof.
  intros ops.
  assert (Hops : existsb is_checkDone ops = false) by reflexivity.
  split; [exact Hops|].
  exact (proj1 (resume_only_from_posted_completion Sample.header_name
                  Sample.to_string ops
                  (start Sample.config false Sample.control_on)) Hops).
Defined.

Lemma reset_forces_Responded_witness :
  let ops :=
    [Op_setDecoderFilterCallbacks;
     Op_decodeHeaders (RanInFrame Sample.success) Sample.request_headers
       false] in
  let w1 := fst (run Sample.header_name Sample.to_string ops
                   (start Sample.config false Sample.control_on)) in
  existsb is_setDecoderFilterCallbacks ops = true
  /\ state_ (instance_of w1) = Complete
  /\ state_ (instance_of
               (fst (step Sample.header_name Sample.to_string
                       Op_resetStream w1))) = Responded.
Proof.
  intros ops w1.
  assert (Hset : existsb is_setDecoderFilterCallbacks ops = true)
    by reflexivity.
  split; [exact Hset|]. split; [by vm_compute|].
  pose proof (proj1 (reset_forces_Responded Sample.header_name
                       Sample.to_string ops
                       (start Sample.config false Sample.control_on))
                Hset) as Hreset.
  cbv zeta in Hreset. fold w1 in Hreset. rewrite Hreset. reflexivity.
Defined.

Lemma local_reply_only_for_failure_witness :
  let ops :=
    [Op_decodeHeaders Deferred Sample.request_headers false;
     Op_checkDone Sample.permission_denied] in
  let trace :=
    snd (run Sample.header_name Sample.to_string ops
           (start Sample.config false Sample.control_on)) in
  In (SendLocalReply 403 "PERMISSION_DENIED: not allowed") trace
  /\ 400 <= 403 <= 504.
Proof.
  intros ops trace.
  assert (Hin : In (SendLocalReply 403 "PERMISSION_DENIED: not allowed")
                  trace).
  { vm_compute. auto 10. }
  split; [exact Hin|].
  exact (proj1 (local_reply_only_for_failure Sample.header_name
                  Sample.to_string ops
                  (start Sample.config false Sample.control_on)
                  403 "PERMISSION_DENIED: not allowed" Hin)).
Defined.

Lemma report_code_is_never_success_witness :
  let ops :=
    [Op_decodeHeaders Deferred Sample.request_headers false;
     Op_checkDone SampleMore.unavailable;
     Op_log None None] in
  let trace :=
    snd (run Sample.header_name Sample.to_string ops
           (start Sample.config false Sample.control_on)) in
  In (HttpControl_Report HttpRequestData_new 503) trace
  /\ 400 <= 503 <= 504.
Proof.
  intros ops trace.
  assert (Hin : In (HttpControl_Report HttpRequestData_new 503) trace).
  { vm_compute. auto 10. }
  split; [exact Hin|].
  exact (proj2 (report_code_is_never_success Sample.header_name
                  Sample.to_string Sample.config false Sample.control_on
                  ops) HttpRequestData_new 503 Hin).
Defined.

Lemma forwarding_is_independent_of_control_witness :
  let r := decodeHeaders Sample.header_name Sample.to_string
             Sample.no_route Deferred Sample.request_headers false
             (Sample.instance_in NotStarted) in
  mixer_disabled Sample.no_route = true
  /\ returned r
     = (FilterHeadersStatus_Continue,
        Sample.request_headers ++ [(Sample.header_name, "YmxvYg==")])
  /\ state_ (after r) = NotStarted.
Proof.
  intros r.
  assert (Hoff : mixer_disabled Sample.no_route = true) by reflexivity.
  split; [exact Hoff|].
  exact (proj2 (proj2 (proj2 (forwarding_is_independent_of_control
                                Sample.header_name Sample.to_string
                                Sample.no_route Deferred
                                Sample.request_headers false
                                (Sample.instance_in NotStarted)))) Hoff).
Defined.

Lemma body_is_held_until_completion_witness :
  let inst1 :=
    after (decodeHeaders Sample.header_name Sample.to_string
             Sample.control_on Deferred Sample.request_headers false
             (Sample.instance_in NotStarted)) in
  let r := run Sample.header_name Sample.to_string sample_chunks
             (mkWorld inst1 Sample.control_on) in
  let inst2 :=
    after (posted_by_wrapper Sample.to_string Sample.success
             (instance_of (fst r))) in
  mixer_disabled Sample.control_on = false
  /\ forallb is_body_or_trailer sample_chunks = true
  /\ fst r = mkWorld inst1 Sample.control_on
  /\ returned (decodeData "more" true (instance_of (fst r)))
     = FilterDataStatus_StopIterationAndBuffer
  /\ returned (decodeData "more" true inst2) = FilterDataStatus_Continue.
Proof.
  intros inst1 r inst2.
  assert (Hon : mixer_disabled Sample.control_on = false)
    by (by vm_compute).
  assert (Hchunks : forallb is_body_or_trailer sample_chunks = true)
    by reflexivity.
  split; [exact Hon|]. split; [exact Hchunks|].
  destruct (body_is_held_until_completion Sample.header_name
              Sample.to_string Sample.control_on Sample.request_headers
              false (Sample.instance_in NotStarted) sample_chunks
              Sample.success Hon Hchunks)
    as (Hsame & _ & Hheld & _ & Hpass & _).
  split; [exact Hsame|]. split; [apply Hheld | apply Hpass].
Defined.

Lemma failed_check_is_answered_and_reported_witness :
  let ops :=
    Op_decodeHeaders Deferred Sample.request_headers false
      :: sample_chunks
      ++ [Op_checkDone Sample.permission_denied; Op_log None None] in
  mixer_disabled SampleMore.control_on_tls = false
  /\ forallb is_body_or_trailer sample_chunks = true
  /\ Status_ok Sample.permission_denied = false
  /\ state_
       (instance_of
          (fst (run Sample.header_name Sample.to_string ops
                  (mkWorld (Sample.instance_in NotStarted)
                     SampleMore.control_on_tls)))) = Responded.
Proof.
  intros ops.
  assert (Hon : mixer_disabled SampleMore.control_on_tls = false)
    by (by vm_compute).
  assert (Hchunks : forallb is_body_or_trailer sample_chunks = true)
    by reflexivity.
  assert (Hfail : Status_ok Sample.permission_denied = false)
    by reflexivity.
  split; [exact Hon|]. split; [exact Hchunks|]. split; [exact Hfail|].
  exact (proj1 (failed_check_is_answered_and_reported Sample.header_name
                  Sample.to_string SampleMore.control_on_tls
                  Sample.request_headers false
                  (Sample.instance_in NotStarted) sample_chunks
                  Sample.permission_denied None None Hon Hchunks Hfail)).
Defined.

Lemma reset_keeps_the_status_code_witness :
  let ops :=
    [Op_setDecoderFilterCallbacks;
     Op_decodeHeaders Deferred Sample.request_headers false]
    ++ sample_chunks
    ++ [Op_resetStream; Op_checkDone Sample.permission_denied;
        Op_log None None] in
  let r := run Sample.header_name Sample.to_string ops
             (start Sample.config false Sample.control_on) in
  mixer_disabled Sample.control_on = false
  /\ forallb is_body_or_trailer sample_chunks = true
  /\ check_status_code_ (instance_of (fst r)) = 500
  /\ count is_SendLocalReply (snd r) = 0%nat
  /\ count is_Report (snd r) = 1%nat
  /\ In (HttpControl_Report HttpRequestData_new 500) (snd r).
Proof.
  intros ops r.
  assert (Hon : mixer_disabled Sample.control_on = false)
    by (by vm_compute).
  assert (Hchunks : forallb is_body_or_trailer sample_chunks = true)
    by reflexivity.
  split; [exact Hon|]. split; [exact Hchunks|].
  exact (reset_keeps_the_status_code Sample.header_name Sample.to_string
           Sample.config false Sample.control_on Sample.request_headers
           false sample_chunks Sample.permission_denied None None
           Hon Hchunks).
Defined.

Lemma Config_new_outcomes_witness :
  (hasObject SampleMore.json_with_bad_server kJsonNameMixerServer = true
   /\ getString SampleMore.json_with_bad_server kJsonNameMixerServer = None
   /\ Config_new Sample.extract Sample.serialize Sample.base64
        SampleMore.json_with_bad_server = None)
  /\ (hasObject SampleMore.json_with_server kJsonNameMixerServer = true
      /\ getString SampleMore.json_with_server kJsonNameMixerServer
         = Some "mixer:9091"
      /\ exists result trace,
           Config_new Sample.extract Sample.serialize Sample.base64
             SampleMore.json_with_server = Some (result, trace)
           /\ mixer_server (http_control result) = "mixer:9091"
           /\ forall fmt, ~ In (LogError fmt) trace).
Proof.
  split.
  - assert (Hhas : hasObject SampleMore.json_with_bad_server
                     kJsonNameMixerServer = true) by reflexivity.
    assert (Hget : getString SampleMore.json_with_bad_server
                     kJsonNameMixerServer = None) by reflexivity.
    split; [exact Hhas|]. split; [exact Hget|].
    exact (proj2 (proj1 (Config_new_outcomes Sample.extract
                           Sample.serialize Sample.base64
                           SampleMore.json_with_bad_server))
             (conj Hhas Hget)).
  - assert (Hhas : hasObject SampleMore.json_with_server
                     kJsonNameMixerServer = true) by reflexivity.
    assert (Hget : getString SampleMore.json_with_server
                     kJsonNameMixerServer = Some "mixer:9091")
      by reflexivity.
    split; [exact Hhas|]. split; [exact Hget|].
    exact (proj1 (proj2 (Config_new_outcomes Sample.extract
                           Sample.serialize Sample.base64
                           SampleMore.json_with_server))
             "mixer:9091" Hhas Hget).
Defined.

Lemma tryCreateFilterFactory_outcomes_witness :
  (HttpFilterType_Encoder <> HttpFilterType_Decoder
   /\ tryCreateFilterFactory Sample.extract Sample.serialize Sample.base64
        HttpFilterType_Encoder "mixer" SampleMore.json_with_server
      = Some (None, []))
  /\ ("router" <> "mixer"
      /\ tryCreateFilterFactory Sample.extract Sample.serialize
           Sample.base64 HttpFilterType_Decoder "router"
           SampleMore.json_with_server
         = Some (None, []))
  /\ tryCreateFilterFactory Sample.extract Sample.serialize Sample.base64
       HttpFilterType_Decoder "mixer" SampleMore.json_with_bad_server
     = None.
Proof.
  split; [|split].
  - assert (H : HttpFilterType_Encoder <> HttpFilterType_Decoder)
      by discriminate.
    split; [exact H|].
    exact (proj2 (proj1 (tryCreateFilterFactory_outcomes Sample.extract
                           Sample.serialize Sample.base64
                           HttpFilterType_Encoder "mixer"
                           SampleMore.json_with_server))
             (or_introl H)).
  - assert (H : "router" <> "mixer") by discriminate.
    split; [exact H|].
    exact (proj2 (proj1 (tryCreateFilterFactory_outcomes Sample.extract
                           Sample.serialize Sample.base64
                           HttpFilterType_Decoder "router"
                           SampleMore.json_with_server))
             (or_intror H)).
  - exact (proj1 (proj2 (tryCreateFilterFactory_outcomes Sample.extract
                           Sample.serialize Sample.base64
                           HttpFilterType_Decoder "mixer"
                           SampleMore.json_with_bad_server))
             eq_refl eq_refl).
Defined.
